(** * gameresult_to_csv: flattening game results into CSV rows

    A shallow embedding of [gameresult_to_csv.py].  The script loads a JSON
    document, maps every element of its ['results'] array to a flat row with
    a fixed set of columns and hands the rows to a [csv.DictWriter].

    The values of the script are the values [json.load] produces: [None],
    booleans, integers, floats, strings, lists and dictionaries with string
    keys.  Exceptions are explicit: a computation is a [result], and the
    [try] blocks of [main] are pattern matches on it. *)

From Stdlib Require Import ZArith String Ascii List Bool Lia DecimalString.
From Stdlib Require Import Permutation.
Import ListNotations.

Set Warnings "-register-all".

Open Scope list_scope.
Open Scope string_scope.

(** ** Python values *)

(** A float is carried by its [repr] text ("3.5", "1e-07", "nan").  The
    script never computes with a float: it returns it, prints it, or tests
    its truth value, and [repr] is canonical for floats. *)
Record pyfloat : Type := PyFloatRepr { float_repr : string }.

(** What [json.load] returns.  A [dict] keeps insertion order, so it is an
    association list; [json.load] never produces a repeated key. *)
Inductive pyval : Type :=
| PyNone
| PyBool (b : bool)
| PyInt (z : Z)
| PyFloat (f : pyfloat)
| PyStr (s : string)
| PyList (items : list pyval)
| PyDict (items : list (string * pyval)).

Definition pydict : Type := list (string * pyval).

(** The induction principle that reaches below lists and dictionaries. *)
Section PyvalInduction.
Variable P : pyval -> Prop.
Hypothesis HNone : P PyNone.
Hypothesis HBool : forall b, P (PyBool b).
Hypothesis HInt : forall z, P (PyInt z).
Hypothesis HFloat : forall f, P (PyFloat f).
Hypothesis HStr : forall s, P (PyStr s).
Hypothesis HList : forall l, Forall P l -> P (PyList l).
Hypothesis HDict : forall d, Forall (fun kv => P (snd kv)) d -> P (PyDict d).
Fixpoint pyval_nested_ind (v : pyval) : P v :=
    match v with
    | PyNone => HNone
    | PyBool b => HBool b
    | PyInt z => HInt z
    | PyFloat f => HFloat f
    | PyStr s => HStr s
    | PyList l =>
        HList l
          ((fix go (l : list pyval) : Forall P l :=
              match l with
              | [] => Forall_nil P
              | x :: tl => Forall_cons x (pyval_nested_ind x) (go tl)
              end) l)
    | PyDict d =>
        HDict d
          ((fix go (d : pydict) : Forall (fun kv => P (snd kv)) d :=
              match d with
              | [] => Forall_nil _
              | (k, x) :: tl =>
                  Forall_cons (P := fun kv => P (snd kv)) (k, x)
                    (pyval_nested_ind x) (go tl)
              end) d)
    end.
End PyvalInduction.

(** ** Exceptions *)

(** An exception: its class and the text [str(e)] gives.  The first four
    are raised by the operations of the script, [UnicodeEncodeError] by the
    write to the output file; the others are what [open] and [json.load]
    can raise besides the two exceptions [main] catches. *)
Inductive exn : Type :=
| AttributeError (msg : string)
| KeyError (msg : string)
| TypeError (msg : string)
| ValueError (msg : string)
| UnicodeEncodeError (msg : string)
| UnicodeDecodeError (msg : string)
| OSError (msg : string)
| RecursionError (msg : string)
| MemoryError (msg : string).

Definition exn_str (e : exn) : string :=
  match e with
  | AttributeError m | KeyError m | TypeError m | ValueError m
  | UnicodeEncodeError m | UnicodeDecodeError m | OSError m
  | RecursionError m | MemoryError m => m
  end.

Inductive result (A : Type) : Type :=
| Return (a : A)
| Raise (e : exn).

Arguments Return {A} a.
Arguments Raise {A} e.

Definition bind {A B : Type} (m : result A) (k : A -> result B) : result B :=
  match m with
  | Return a => k a
  | Raise e => Raise e
  end.

Declare Scope py_scope.
Delimit Scope py_scope with py.
Notation "x <- m ;; k" := (bind m (fun x => k))
  (at level 61, m at next level, right associativity) : py_scope.
Open Scope py_scope.

Definition is_return {A : Type} (m : result A) : bool :=
  match m with
  | Return _ => true
  | Raise _ => false
  end.

(** ** Built-ins: [type], [str], [repr], [bool], [==] *)

Definition type_name (v : pyval) : string :=
  match v with
  | PyNone => "NoneType"
  | PyBool _ => "bool"
  | PyInt _ => "int"
  | PyFloat _ => "float"
  | PyStr _ => "str"
  | PyList _ => "list"
  | PyDict _ => "dict"
  end.

Definition no_attribute (v : pyval) (attr : string) : exn :=
  AttributeError ("'" ++ type_name v ++ "' object has no attribute '" ++ attr ++ "'").

(** [str(n)] for an integer. *)
Definition int_str (z : Z) : string := NilZero.string_of_int (Z.to_int z).

Definition dquote : ascii := ascii_of_nat 34.
Definition squote : ascii := ascii_of_nat 39.
Definition backslash : ascii := ascii_of_nat 92.

Fixpoint str_has (c : ascii) (s : string) : bool :=
  match s with
  | EmptyString => false
  | String a rest => Ascii.eqb a c || str_has c rest
  end.

Definition hex_digit (n : nat) : ascii :=
  if Nat.ltb n 10 then ascii_of_nat (48 + n) else ascii_of_nat (87 + n).

(** A string is a sequence of characters (code points), held as the bytes
    of their UTF-8 encoding.  [json.load] accepts an escape for half of a
    surrogate pair and returns a string with a lone surrogate in it; such a
    character is held as the three bytes ED, A0..BF, 80..BF that the same
    scheme gives it. *)
Definition is_continuation (c : ascii) : bool :=
  let n := nat_of_ascii c in Nat.leb 128 n && Nat.ltb n 192.

(** The characters of a string: each lead byte with the continuation bytes
    that follow it. *)
Fixpoint str_chars (s : string) : list string :=
  match s with
  | EmptyString => []
  | String c rest =>
      let joins := match rest with
                   | String c' _ => is_continuation c'
                   | EmptyString => false
                   end in
      match str_chars rest with
      | ch :: tl => if joins then String c ch :: tl else String c EmptyString :: ch :: tl
      | [] => [String c EmptyString]
      end
  end.

(** The character is a surrogate, U+D800 to U+DFFF. *)
Definition is_surrogate (ch : string) : bool :=
  match ch with
  | String c1 (String c2 (String c3 EmptyString)) =>
      Nat.eqb (nat_of_ascii c1) 237
      && Nat.leb 160 (nat_of_ascii c2) && Nat.ltb (nat_of_ascii c2) 192
      && is_continuation c3
  | _ => false
  end.

(** The escape of a surrogate, as in [repr] and in error messages: a
    backslash, [u] and the four hexadecimal digits of the code point. *)
Definition surrogate_escape (ch : string) : string :=
  match ch with
  | String _ (String c2 (String c3 EmptyString)) =>
      let low := (nat_of_ascii c2 - 128) * 64 + (nat_of_ascii c3 - 128) in
      String backslash
        (String "u"
           (String "d"
              (String (hex_digit (low / 256))
                 (String (hex_digit ((low / 16) mod 16))
                    (String (hex_digit (low mod 16)) EmptyString)))))
  | _ => ch
  end.

(** One one-byte character of [repr(s)]. *)
Definition repr_ascii (quote c : ascii) : string :=
  let n := nat_of_ascii c in
  if Ascii.eqb c quote || Ascii.eqb c backslash then String backslash (String c EmptyString)
  else if Nat.eqb n 9 then String backslash "t"
  else if Nat.eqb n 10 then String backslash "n"
  else if Nat.eqb n 13 then String backslash "r"
  else if Nat.ltb n 32 || Nat.eqb n 127 then
    String backslash (String "x" (String (hex_digit (n / 16)) (String (hex_digit (n mod 16)) EmptyString)))
  else String c EmptyString.

(** One character of [repr(s)]: a surrogate is escaped, any other
    character above 127 is kept, as [repr] keeps every printable
    character. *)
Definition repr_char (quote : ascii) (ch : string) : string :=
  match ch with
  | String c EmptyString => repr_ascii quote c
  | _ => if is_surrogate ch then surrogate_escape ch else ch
  end.

Definition repr_chars (quote : ascii) (s : string) : string :=
  String.concat "" (map (repr_char quote) (str_chars s)).

(** [repr(s)] for a string: single quotes, unless the text has a single
    quote and no double quote. *)
Definition str_repr (s : string) : string :=
  let quote := if str_has squote s && negb (str_has dquote s) then dquote else squote in
  String quote (repr_chars quote s ++ String quote EmptyString).

Fixpoint py_repr (v : pyval) : string :=
  match v with
  | PyNone => "None"
  | PyBool b => if b then "True" else "False"
  | PyInt z => int_str z
  | PyFloat f => float_repr f
  | PyStr s => str_repr s
  | PyList l => "[" ++ String.concat ", " (map py_repr l) ++ "]"
  | PyDict d =>
      "{" ++ String.concat ", "
               (map (fun '(k, x) => str_repr k ++ ": " ++ py_repr x) d) ++ "}"
  end.

(** [str(v)]; also what an f-string does with [{v}]. *)
Definition py_str (v : pyval) : string :=
  match v with
  | PyStr s => s
  | _ => py_repr v
  end.

(** Truth value, as [if v:] tests it. *)
Definition py_bool (v : pyval) : bool :=
  match v with
  | PyNone => false
  | PyBool b => b
  | PyInt z => negb (Z.eqb z 0)
  | PyFloat f => negb (String.eqb (float_repr f) "0.0" || String.eqb (float_repr f) "-0.0")
  | PyStr s => negb (String.eqb s "")
  | PyList l => match l with [] => false | _ => true end
  | PyDict d => match d with [] => false | _ => true end
  end.

(** [v == s] for a string literal [s]. *)
Definition py_eq_str (v : pyval) (s : string) : bool :=
  match v with
  | PyStr t => String.eqb t s
  | _ => false
  end.

(** [isinstance(v, (list, dict))] *)
Definition is_list_or_dict (v : pyval) : bool :=
  match v with
  | PyList _ | PyDict _ => true
  | _ => false
  end.

Definition is_dict (v : pyval) : bool :=
  match v with
  | PyDict _ => true
  | _ => false
  end.

Definition is_str (v : pyval) : bool :=
  match v with
  | PyStr _ => true
  | _ => false
  end.

Definition is_number (v : pyval) : bool :=
  match v with
  | PyInt _ | PyFloat _ => true
  | _ => false
  end.

(** ** Dictionaries *)

(** [k in d] *)
Fixpoint dict_contains (k : string) (d : pydict) : bool :=
  match d with
  | [] => false
  | (k', _) :: rest => String.eqb k' k || dict_contains k rest
  end.

Fixpoint dict_find (k : string) (d : pydict) : option pyval :=
  match d with
  | [] => None
  | (k', v) :: rest => if String.eqb k' k then Some v else dict_find k rest
  end.

(** [d[k]] *)
Definition dict_getitem (d : pydict) (k : string) : result pyval :=
  match dict_find k d with
  | Some v => Return v
  | None => Raise (KeyError (str_repr k))
  end.

(** [d.get(k, default)] *)
Definition dict_get (d : pydict) (k : string) (default : pyval) : pyval :=
  match dict_find k d with
  | Some v => v
  | None => default
  end.

(** [d[k] = v]: a known key keeps its place, a new key goes last. *)
Fixpoint dict_set (k : string) (v : pyval) (d : pydict) : pydict :=
  match d with
  | [] => [(k, v)]
  | (k', v') :: rest =>
      if String.eqb k' k then (k', v) :: rest else (k', v') :: dict_set k v rest
  end.

(** [list(d.keys())] *)
Definition dict_keys (d : pydict) : list string := map fst d.

(** [v.get(k, default)] on any value: only a dict has [get]. *)
Definition py_get (v : pyval) (k : string) (default : pyval) : result pyval :=
  match v with
  | PyDict d => Return (dict_get d k default)
  | _ => Raise (no_attribute v "get")
  end.

(** [v.items()] on any value. *)
Definition py_items (v : pyval) : result pydict :=
  match v with
  | PyDict d => Return d
  | _ => Raise (no_attribute v "items")
  end.

(** ** [flatten_value] *)

(** [f"{k}: {v_str}"] *)
Definition fmt_pair (k : string) (v_str : pyval) : string :=
  k ++ ": " ++ py_str v_str.

(** The final [else: return str(value)] of the source has no case here: the
    six [isinstance] tests before it cover every value of [pyval]. *)
Fixpoint flatten_value (value : pyval) : result pyval :=
  match value with
  | PyNone => Return (PyStr "")
  | PyBool _ => Return (PyStr (py_str value))
  | PyInt _ | PyFloat _ => Return value
  | PyStr _ => Return value
  | PyList l => Return (PyStr (String.concat ", " (map py_str l)))
  | PyDict d =>
      is_date <- (if dict_contains "__type" d
                  then t <- dict_getitem d "__type";; Return (py_eq_str t "Date")
                  else Return false);;
      if is_date then Return (dict_get d "iso" (PyStr ""))
      else if Nat.eqb (List.length d) 0 then Return (PyStr "")
      else
        items <- (fix loop (kvs : pydict) (items : list string) {struct kvs}
                    : result (list string) :=
                    match kvs with
                    | [] => Return items
                    | (k, v) :: rest =>
                        v_str <- (match v with
                                  | PyList _ | PyDict _ => flatten_value v
                                  | _ => Return (PyStr (py_str v))
                                  end);;
                        loop rest (List.app items [fmt_pair k v_str])
                    end) d [];;
        Return (PyStr (String.concat "; " items))
  end.

(** ** [extract_fields] *)

(** [', '.join(str(card) for card in cards) if isinstance(cards, list)
    else str(cards)] *)
Definition cards_list (cards : pyval) : string :=
  match cards with
  | PyList l => String.concat ", " (map py_str l)
  | _ => py_str cards
  end.

(** The [for spirit, cards in power_cards_owned.items()] loop: one
    [cards_strs.append] per entry. *)
Definition cards_strs_loop (items : pydict) : list string :=
  fold_left
    (fun (cards_strs : list string) '(spirit, cards) =>
       List.app cards_strs [spirit ++ ": " ++ cards_list cards])
    items [].

Definition extract_fields (game_result : pyval) : result pydict :=
  let row : pydict := [] in
  (* Simple fields *)
  v <- py_get game_result "objectId" (PyStr "");;
  let row := dict_set "objectId" v row in
  v <- py_get game_result "adversary" (PyStr "");;
  let row := dict_set "adversary" v row in
  v <- py_get game_result "adversaryLevel" (PyStr "");;
  let row := dict_set "adversaryLevel" v row in
  v <- py_get game_result "scenario" (PyStr "");;
  let row := dict_set "scenario" v row in
  v <- py_get game_result "usingEvents" (PyBool false);;
  let row := dict_set "usingEvents" v row in
  v <- py_get game_result "usingTokens" (PyBool false);;
  let row := dict_set "usingTokens" v row in
  v <- py_get game_result "isMultiplayer" (PyBool false);;
  let row := dict_set "isMultiplayer" v row in
  v <- py_get game_result "waveNumber" (PyStr "");;
  let row := dict_set "waveNumber" v row in
  v <- py_get game_result "endingResult" (PyStr "");;
  let row := dict_set "endingResult" v row in
  v <- py_get game_result "blightCard" (PyStr "");;
  let row := dict_set "blightCard" v row in
  v <- py_get game_result "blightCardFlipped" (PyBool false);;
  let row := dict_set "blightCardFlipped" v row in
  v <- py_get game_result "blightRemaining" (PyStr "");;
  let row := dict_set "blightRemaining" v row in
  v <- py_get game_result "score" (PyStr "");;
  let row := dict_set "score" v row in
  v <- py_get game_result "turn" (PyStr "");;
  let row := dict_set "turn" v row in
  v <- py_get game_result "invaderCardsInDeck" (PyStr "");;
  let row := dict_set "invaderCardsInDeck" v row in
  v <- py_get game_result "invaderCardsNotInDeck" (PyStr "");;
  let row := dict_set "invaderCardsNotInDeck" v row in
  v <- py_get game_result "blightOnIsland" (PyStr "");;
  let row := dict_set "blightOnIsland" v row in
  v <- py_get game_result "dahanOnIsland" (PyStr "");;
  let row := dict_set "dahanOnIsland" v row in
  v <- py_get game_result "terrorLevel" (PyStr "");;
  let row := dict_set "terrorLevel" v row in
  v <- py_get game_result "installationId" (PyStr "");;
  let row := dict_set "installationId" v row in
  (* Date fields *)
  end_date <- py_get game_result "endDate" (PyDict []);;
  v <- match end_date with
       | PyDict d =>
           if dict_contains "iso" d then dict_getitem d "iso" else Return (PyStr "")
       | _ => Return (PyStr "")
       end;;
  let row := dict_set "endDate" v row in
  v <- py_get game_result "createdAt" (PyStr "");;
  let row := dict_set "createdAt" v row in
  v <- py_get game_result "updatedAt" (PyStr "");;
  let row := dict_set "updatedAt" v row in
  (* Array fields *)
  x <- py_get game_result "spirits" (PyList []);;
  v <- flatten_value x;;
  let row := dict_set "spirits" v row in
  x <- py_get game_result "boards" (PyList []);;
  v <- flatten_value x;;
  let row := dict_set "boards" v row in
  x <- py_get game_result "powerProgressionSpirits" (PyList []);;
  v <- flatten_value x;;
  let row := dict_set "powerProgressionSpirits" v row in
  x <- py_get game_result "practiceModes" (PyList []);;
  v <- flatten_value x;;
  let row := dict_set "practiceModes" v row in
  x <- py_get game_result "powerCardsInDiscard" (PyList []);;
  v <- flatten_value x;;
  let row := dict_set "powerCardsInDiscard" v row in
  x <- py_get game_result "emptyPresenceTrackNodes" (PyList []);;
  v <- flatten_value x;;
  let row := dict_set "emptyPresenceTrackNodes" v row in
  (* Nested objects *)
  x <- py_get game_result "layout" (PyDict []);;
  v <- flatten_value x;;
  let row := dict_set "layout" v row in
  (* powerCardsOwned *)
  power_cards_owned <- py_get game_result "powerCardsOwned" (PyDict []);;
  v <- (if py_bool power_cards_owned
        then items <- py_items power_cards_owned;;
             Return (PyStr (String.concat "; " (cards_strs_loop items)))
        else Return (PyStr ""));;
  let row := dict_set "powerCardsOwned" v row in
  Return row.

(** The columns, in the order [extract_fields] assigns them. *)
Definition schema : list string :=
  [ "objectId"; "adversary"; "adversaryLevel"; "scenario"; "usingEvents";
    "usingTokens"; "isMultiplayer"; "waveNumber"; "endingResult"; "blightCard";
    "blightCardFlipped"; "blightRemaining"; "score"; "turn";
    "invaderCardsInDeck"; "invaderCardsNotInDeck"; "blightOnIsland";
    "dahanOnIsland"; "terrorLevel"; "installationId"; "endDate"; "createdAt";
    "updatedAt"; "spirits"; "boards"; "powerProgressionSpirits";
    "practiceModes"; "powerCardsInDiscard"; "emptyPresenceTrackNodes";
    "layout"; "powerCardsOwned" ].

(** ** What [main] does to its argument: [in], subscript, [len], iteration *)

(** [needle in v] *)
Definition py_contains (needle : string) (v : pyval) : result bool :=
  match v with
  | PyDict d => Return (dict_contains needle d)
  | PyList l => Return (existsb (fun x => py_eq_str x needle) l)
  | PyStr s => Return (match String.index 0 needle s with
                       | Some _ => true
                       | None => false
                       end)
  | _ => Raise (TypeError ("argument of type '" ++ type_name v ++ "' is not iterable"))
  end.

(** [v[k]] for a string [k] *)
Definition py_getitem (v : pyval) (k : string) : result pyval :=
  match v with
  | PyDict d => dict_getitem d k
  | PyList _ => Raise (TypeError "list indices must be integers or slices, not str")
  | PyStr _ => Raise (TypeError "string indices must be integers, not 'str'")
  | _ => Raise (TypeError ("'" ++ type_name v ++ "' object is not subscriptable"))
  end.

(** [len(v)] *)
Definition py_len (v : pyval) : result nat :=
  match v with
  | PyStr s => Return (List.length (str_chars s))
  | PyList l => Return (List.length l)
  | PyDict d => Return (List.length d)
  | _ => Raise (TypeError ("object of type '" ++ type_name v ++ "' has no len()"))
  end.

(** What [for x in v] visits: the elements of a list, the keys of a dict,
    the characters of a string. *)
Definition py_iter (v : pyval) : result (list pyval) :=
  match v with
  | PyStr s => Return (map PyStr (str_chars s))
  | PyList l => Return l
  | PyDict d => Return (map PyStr (dict_keys d))
  | _ => Raise (TypeError ("'" ++ type_name v ++ "' object is not iterable"))
  end.

(** ** The process and its files *)

(** What [open] and [json.load] make of [GameResult2.json]: the two
    exceptions the [try] block of [main] catches, any other exception they
    raise (bytes that are not UTF-8, a file that cannot be read, nesting
    beyond the recursion limit), or the parsed document. *)
Inductive load_result : Type :=
| FileNotFoundError
| JSONDecodeError (msg : string)
| LoadError (e : exn)
| Loaded (data : pyval).

(** Standard error: the lines the script prints, and the traceback the
    interpreter prints for an exception nobody caught. *)
Inductive stderr_item : Type :=
| Message (text : string)
| Traceback (e : exn).

(** [GameResult2.csv] as the writer was driven: the header row, then the
    cells of each row in header order.  A file that was opened and got no
    header yet has the empty header. *)
Record csv_file : Type := CsvFile {
  csv_header : list string;
  csv_rows : list (list pyval)
}.

Record outcome : Type := Outcome {
  stdout : list string;
  stderr : list stderr_item;
  exit_code : Z;
  csv_written : option csv_file
}.

(** [sys.exit(1)] after a message *)
Definition exit_1 (out : list string) (err : list stderr_item) (msg : string) : outcome :=
  Outcome out (List.app err [Message msg]) 1 None.

(** An exception leaves [main]: traceback, status 1. *)
Definition uncaught (out : list string) (err : list stderr_item) (e : exn)
    (file : option csv_file) : outcome :=
  Outcome out (List.app err [Traceback e]) 1 file.

Definition warning (i : nat) (e : exn) : stderr_item :=
  Message ("Warning: Error processing game result " ++ int_str (Z.of_nat (i + 1))
           ++ ": " ++ exn_str e).

(** The loop over [enumerate(results)], from index [i] on. *)
Fixpoint extract_rows (i : nat) (results : list pyval) (rows : list pydict)
    (err : list stderr_item) : list pydict * list stderr_item :=
  match results with
  | [] => (rows, err)
  | game_result :: rest =>
      match extract_fields game_result with
      | Return row => extract_rows (S i) rest (List.app rows [row]) err
      | Raise e => extract_rows (S i) rest rows (List.app err [warning i e])
      end
  end.

(** [csv.DictWriter._dict_to_list] with the defaults [restval=''] and
    [extrasaction='raise']. *)
Definition dict_to_list (fieldnames : list string) (rowdict : pydict)
    : result (list pyval) :=
  let wrong_fields :=
    filter (fun k => negb (existsb (String.eqb k) fieldnames)) (dict_keys rowdict) in
  match wrong_fields with
  | [] => Return (map (fun key => dict_get rowdict key (PyStr "")) fieldnames)
  | _ => Raise (ValueError ("dict contains fields not in fieldnames: "
                            ++ String.concat ", " (map str_repr wrong_fields)))
  end.

(** The text [csv.writer] makes of one cell: nothing for [None], a string
    as it is, [str] of anything else. *)
Definition cell_text (v : pyval) : string :=
  match v with
  | PyNone => ""
  | _ => py_str v
  end.

Definition carriage_return : ascii := ascii_of_nat 13.
Definition line_feed : ascii := ascii_of_nat 10.

(** A field is quoted when it holds the delimiter, the quote character or
    a character of the line terminator. *)
Fixpoint needs_quotes (field : string) : bool :=
  match field with
  | EmptyString => false
  | String c rest =>
      Ascii.eqb c "," || Ascii.eqb c dquote
      || Ascii.eqb c carriage_return || Ascii.eqb c line_feed
      || needs_quotes rest
  end.

(** Inside quotes a quote character is doubled. *)
Fixpoint double_quotes (field : string) : string :=
  match field with
  | EmptyString => EmptyString
  | String c rest =>
      if Ascii.eqb c dquote
      then String dquote (String dquote (double_quotes rest))
      else String c (double_quotes rest)
  end.

Definition csv_field (field : string) : string :=
  if needs_quotes field
  then String dquote (double_quotes field ++ String dquote EmptyString)
  else field.

(** The line [csv.writer] hands to [f.write] for one row, with the default
    dialect: fields joined by commas, a row of one empty field written as
    two quotes, the terminator "\r\n". *)
Definition csv_line (cells : list pyval) : string :=
  let fields := String.concat "," (map (fun v => csv_field (cell_text v)) cells) in
  let record := match cells, fields with
                | _ :: _, EmptyString => String dquote (String dquote EmptyString)
                | _, _ => fields
                end in
  record ++ String carriage_return (String line_feed EmptyString).

(** How many surrogates stand at the head of the characters. *)
Fixpoint surrogate_run (chars : list string) : nat :=
  match chars with
  | ch :: rest => if is_surrogate ch then S (surrogate_run rest) else 0
  | [] => 0
  end.

(** The first surrogate from position [pos] on: where it stands, the
    character, and how many surrogates stand there in a row. *)
Fixpoint first_surrogate (pos : nat) (chars : list string)
    : option (nat * string * nat) :=
  match chars with
  | [] => None
  | ch :: rest =>
      if is_surrogate ch then Some (pos, ch, surrogate_run chars)
      else first_surrogate (S pos) rest
  end.

(** What [f.write(text)] does before anything reaches the file: the text
    is encoded with the strict ['utf-8'] codec, which refuses surrogates. *)
Definition utf8_encode (text : string) : result unit :=
  match first_surrogate 0 (str_chars text) with
  | None => Return tt
  | Some (start, ch, run) =>
      Raise (UnicodeEncodeError
               (if Nat.eqb run 1
                then "'utf-8' codec can't encode character '" ++ surrogate_escape ch
                     ++ "' in position " ++ int_str (Z.of_nat start)
                     ++ ": surrogates not allowed"
                else "'utf-8' codec can't encode characters in position "
                     ++ int_str (Z.of_nat start) ++ "-"
                     ++ int_str (Z.of_nat (start + run - 1))
                     ++ ": surrogates not allowed"))
  end.

(** [DictWriter.writerow(rowdict)]: the cells in header order, then the
    line written to the file. *)
Definition writerow (fieldnames : list string) (rowdict : pydict)
    : result (list pyval) :=
  cells <- dict_to_list fieldnames rowdict;;
  _ <- utf8_encode (csv_line cells);;
  Return cells.

(** [DictWriter.writeheader()]: the row [dict(zip(fieldnames, fieldnames))]. *)
Definition writeheader (fieldnames : list string) : result (list pyval) :=
  writerow fieldnames
    (fold_left (fun header k => dict_set k (PyStr k) header) fieldnames []).

(** [writer.writerows(rows)]: rows go out one by one; an exception stops
    the writing and keeps what was written. *)
Fixpoint writerows (fieldnames : list string) (rows : list pydict)
    (written : list (list pyval)) : list (list pyval) * option exn :=
  match rows with
  | [] => (written, None)
  | rowdict :: rest =>
      match writerow fieldnames rowdict with
      | Return cells => writerows fieldnames rest (List.app written [cells])
      | Raise e => (written, Some e)
      end
  end.

Definition input_file : string := "GameResult2.json".
Definition output_file : string := "GameResult2.csv".

(** [main], given what loading the input file gives.  The output file is
    one that can be opened for writing; what can fail there is the encoding
    of a line. *)
Definition main (loaded : load_result) : outcome :=
  let out := ["Reading " ++ input_file ++ "..."] in
  let err : list stderr_item := [] in
  match loaded with
  | FileNotFoundError => exit_1 out err ("Error: " ++ input_file ++ " not found!")
  | JSONDecodeError e =>
      exit_1 out err ("Error: Invalid JSON in " ++ input_file ++ ": " ++ e)
  | LoadError e => uncaught out err e None
  | Loaded data =>
      match py_contains "results" data with
      | Raise e => uncaught out err e None
      | Return false => exit_1 out err "Error: 'results' key not found in JSON"
      | Return true =>
          match py_getitem data "results" with
          | Raise e => uncaught out err e None
          | Return results =>
              match py_len results with
              | Raise e => uncaught out err e None
              | Return n =>
                  let out := List.app out
                    ["Found " ++ int_str (Z.of_nat n) ++ " game results"] in
                  match py_iter results with
                  | Raise e => uncaught out err e None
                  | Return items =>
                      let '(rows, err) := extract_rows 0 items [] err in
                      match rows with
                      | [] => exit_1 out err "Error: No valid game results found"
                      | first :: _ =>
                          let fieldnames := dict_keys first in
                          let out := List.app out
                            ["Writing to " ++ output_file ++ "..."] in
                          match writeheader fieldnames with
                          | Raise e => uncaught out err e (Some (CsvFile [] []))
                          | Return _ =>
                          match writerows fieldnames rows [] with
                          | (written, Some e) =>
                              uncaught out err e (Some (CsvFile fieldnames written))
                          | (written, None) =>
                              let out := List.app out
                                [ "Successfully converted "
                                  ++ int_str (Z.of_nat (List.length rows))
                                  ++ " game results to " ++ output_file;
                                  "   Columns: "
                                  ++ int_str (Z.of_nat (List.length fieldnames));
                                  "   Sample columns: "
                                  ++ String.concat ", " (firstn 10 fieldnames)
                                  ++ "..." ] in
                              Outcome out err 0 (Some (CsvFile fieldnames written))
                          end
                          end
                      end
                  end
              end
          end
      end
  end.

(** * Vocabulary of the properties *)

(** ** The value flattener *)

(** A date wrapper: a dictionary whose ['__type'] entry equals ['Date']. *)
Definition is_date_wrapper (d : pydict) : bool :=
  match dict_find "__type" d with
  | Some t => py_eq_str t "Date"
  | None => false
  end.

(** The text of one value of a generic dictionary, given the flattener. *)
Definition value_str (flatten : pyval -> result pyval) (v : pyval) : result pyval :=
  if is_list_or_dict v then flatten v else Return (PyStr (py_str v)).

(** The [for k, v in value.items()] loop of [flatten_value], by name. *)
Fixpoint flatten_items (kvs : pydict) (items : list string) : result (list string) :=
  match kvs with
  | [] => Return items
  | (k, v) :: rest =>
      v_str <- value_str flatten_value v;;
      flatten_items rest (List.app items [fmt_pair k v_str])
  end.

(** The value [flatten_value] returns. *)
Definition flattened (v : pyval) : pyval :=
  match flatten_value v with
  | Return r => r
  | Raise _ => PyNone
  end.

(** One ["key: value"] entry of a generic dictionary. *)
Definition pair_text (kv : string * pyval) : string :=
  let (k, v) := kv in
  k ++ ": " ++ (if is_list_or_dict v then py_str (flattened v) else py_str v).

(** ** The record extractor *)

(** The cell of a date column that is read through ['iso']. *)
Definition iso_or_empty (end_date : pyval) : pyval :=
  match end_date with
  | PyDict d => match dict_find "iso" d with
                | Some iso => iso
                | None => PyStr ""
                end
  | _ => PyStr ""
  end.

(** The ['powerCardsOwned'] cell, the one step of [extract_fields] on a
    dictionary that can raise. *)
Definition owned_cell (power_cards_owned : pyval) : result pyval :=
  if py_bool power_cards_owned
  then items <- py_items power_cards_owned;;
       Return (PyStr (String.concat "; " (cards_strs_loop items)))
  else Return (PyStr "").

(** The row of a dictionary record, given its ['powerCardsOwned'] cell. *)
Definition row_of (d : pydict) (owned : pyval) : pydict :=
  [ ("objectId", dict_get d "objectId" (PyStr ""));
    ("adversary", dict_get d "adversary" (PyStr ""));
    ("adversaryLevel", dict_get d "adversaryLevel" (PyStr ""));
    ("scenario", dict_get d "scenario" (PyStr ""));
    ("usingEvents", dict_get d "usingEvents" (PyBool false));
    ("usingTokens", dict_get d "usingTokens" (PyBool false));
    ("isMultiplayer", dict_get d "isMultiplayer" (PyBool false));
    ("waveNumber", dict_get d "waveNumber" (PyStr ""));
    ("endingResult", dict_get d "endingResult" (PyStr ""));
    ("blightCard", dict_get d "blightCard" (PyStr ""));
    ("blightCardFlipped", dict_get d "blightCardFlipped" (PyBool false));
    ("blightRemaining", dict_get d "blightRemaining" (PyStr ""));
    ("score", dict_get d "score" (PyStr ""));
    ("turn", dict_get d "turn" (PyStr ""));
    ("invaderCardsInDeck", dict_get d "invaderCardsInDeck" (PyStr ""));
    ("invaderCardsNotInDeck", dict_get d "invaderCardsNotInDeck" (PyStr ""));
    ("blightOnIsland", dict_get d "blightOnIsland" (PyStr ""));
    ("dahanOnIsland", dict_get d "dahanOnIsland" (PyStr ""));
    ("terrorLevel", dict_get d "terrorLevel" (PyStr ""));
    ("installationId", dict_get d "installationId" (PyStr ""));
    ("endDate", iso_or_empty (dict_get d "endDate" (PyDict [])));
    ("createdAt", dict_get d "createdAt" (PyStr ""));
    ("updatedAt", dict_get d "updatedAt" (PyStr ""));
    ("spirits", flattened (dict_get d "spirits" (PyList [])));
    ("boards", flattened (dict_get d "boards" (PyList [])));
    ("powerProgressionSpirits",
       flattened (dict_get d "powerProgressionSpirits" (PyList [])));
    ("practiceModes", flattened (dict_get d "practiceModes" (PyList [])));
    ("powerCardsInDiscard", flattened (dict_get d "powerCardsInDiscard" (PyList [])));
    ("emptyPresenceTrackNodes",
       flattened (dict_get d "emptyPresenceTrackNodes" (PyList [])));
    ("layout", flattened (dict_get d "layout" (PyDict [])));
    ("powerCardsOwned", owned) ].

(** A row that [extract_fields] built from a dictionary. *)
Definition is_row (row : pydict) : Prop :=
  exists d owned, row = row_of d owned.

(** One entry of the ['powerCardsOwned'] text. *)
Definition owned_entry (kv : string * pyval) : string :=
  let (spirit, cards) := kv in spirit ++ ": " ++ cards_list cards.

(** Column [c] is read through ['iso']: on every record that is extracted,
    the cell is the ['iso'] value of the nested object in field [c], and
    the empty string when there is no such object or no such value. *)
Definition read_through_iso (c : string) : Prop :=
  forall d row,
    extract_fields (PyDict d) = Return row ->
    dict_find c row = Some (iso_or_empty (dict_get d c (PyDict []))).

(** ** The pipeline driver *)

(** The rows of the records that are extracted, in the order of the
    records. *)
Fixpoint successes (results : list pyval) : list pydict :=
  match results with
  | [] => []
  | game_result :: rest =>
      match extract_fields game_result with
      | Return row => row :: successes rest
      | Raise _ => successes rest
      end
  end.

(** The records that raise, with their position counted from [i]. *)
Fixpoint failures (i : nat) (results : list pyval) : list (nat * exn) :=
  match results with
  | [] => []
  | game_result :: rest =>
      match extract_fields game_result with
      | Return _ => failures (S i) rest
      | Raise e => (i, e) :: failures (S i) rest
      end
  end.

Definition warnings (i : nat) (results : list pyval) : list stderr_item :=
  map (fun ie => warning (fst ie) (snd ie)) (failures i results).

(** What [main] prints at the start of a run that reaches the loop. *)
Definition progress (n : nat) : list string :=
  [ "Reading " ++ input_file ++ "...";
    "Found " ++ int_str (Z.of_nat n) ++ " game results" ].

(** What [main] prints at the end of a run that wrote the file. *)
Definition summary (n : nat) : list string :=
  [ "Successfully converted " ++ int_str (Z.of_nat n)
    ++ " game results to " ++ output_file;
    "   Columns: " ++ int_str (Z.of_nat (List.length schema));
    "   Sample columns: " ++ String.concat ", " (firstn 10 schema) ++ "..." ].

(** The document has a top-level ['results'] key. *)
Definition has_results_key (data : pyval) : bool :=
  match data with
  | PyDict d => dict_contains "results" d
  | _ => false
  end.

(** The records of the document: what the loop visits in ['results']. *)
Definition records (data : pyval) : list pyval :=
  match data with
  | PyDict d =>
      match dict_find "results" d with
      | Some results => match py_iter results with
                        | Return items => items
                        | Raise _ => []
                        end
      | None => []
      end
  | _ => []
  end.

(** The rows that survive extraction. *)
Definition surviving_rows (data : pyval) : list pydict := successes (records data).

(** The text holds a surrogate, which the strict ['utf-8'] codec refuses. *)
Definition has_surrogate (text : string) : bool :=
  existsb is_surrogate (str_chars text).

(** The rows [writerows] gets through: those before the first row whose
    line cannot be encoded. *)
Fixpoint encodable_prefix (rows : list pydict) : list pydict :=
  match rows with
  | [] => []
  | row :: rest =>
      if has_surrogate (csv_line (map snd row)) then []
      else row :: encodable_prefix rest
  end.

(** The exception of the first row whose line cannot be encoded. *)
Fixpoint first_encode_error (rows : list pydict) : option exn :=
  match rows with
  | [] => None
  | row :: rest =>
      match utf8_encode (csv_line (map snd row)) with
      | Return _ => first_encode_error rest
      | Raise e => Some e
      end
  end.

(** The four fatal cases: no input file, no valid JSON, no ['results'] key,
    no surviving row.  A document that is not a dictionary has no key, and
    a ['results'] that cannot be visited has no record: on those [main]
    stops with a [TypeError] that nobody catches. *)
Definition fatal (loaded : load_result) : bool :=
  match loaded with
  | FileNotFoundError => true
  | JSONDecodeError _ => true
  | LoadError _ => false
  | Loaded data =>
      negb (has_results_key data)
      || match surviving_rows data with [] => true | _ :: _ => false end
  end.



(** ** Groups of columns *)

(** The simple fields that default to the empty string (source lines 48-67). *)
Definition text_fields : list string :=
  [ "objectId"; "adversary"; "adversaryLevel"; "scenario"; "waveNumber";
    "endingResult"; "blightCard"; "blightRemaining"; "score"; "turn";
    "invaderCardsInDeck"; "invaderCardsNotInDeck"; "blightOnIsland";
    "dahanOnIsland"; "terrorLevel"; "installationId" ].

(** The simple fields that default to [False]. *)
Definition flag_fields : list string :=
  [ "usingEvents"; "usingTokens"; "isMultiplayer"; "blightCardFlipped" ].

(** The fields that go through [flatten_value] (source lines 80-88). *)
Definition flattened_fields : list string :=
  [ "spirits"; "boards"; "powerProgressionSpirits"; "practiceModes";
    "powerCardsInDiscard"; "emptyPresenceTrackNodes"; "layout" ].

(** The documents on which [main] stops with an exception nobody catches:
    a scalar document, a list or a string that contains ['results'], a
    dictionary whose ['results'] is a scalar. *)
Definition crashes (data : pyval) : bool :=
  match data with
  | PyNone | PyBool _ | PyInt _ | PyFloat _ => true
  | PyStr s => match String.index 0 "results" s with
               | Some _ => true
               | None => false
               end
  | PyList l => existsb (fun x => py_eq_str x "results") l
  | PyDict d =>
      match dict_find "results" d with
      | Some (PyNone | PyBool _ | PyInt _ | PyFloat _) => true
      | _ => false
      end
  end.

(** What a fatal case leaves on standard error: the line the script
    prints for the case, after the warnings of the records when there are
    any; or, on a document that crashes [main], the traceback of the
    [TypeError]. *)
Definition error_report (loaded : load_result) (err : list stderr_item) : Prop :=
  match loaded with
  | FileNotFoundError => err = [Message "Error: GameResult2.json not found!"]
  | JSONDecodeError msg =>
      err = [Message ("Error: Invalid JSON in GameResult2.json: " ++ msg)]
  | LoadError e => err = [Traceback e]
  | Loaded data =>
      if crashes data then exists msg, err = [Traceback (TypeError msg)]
      else if has_results_key data
           then err = List.app (warnings 0 (records data))
                        [Message "Error: No valid game results found"]
           else err = [Message "Error: 'results' key not found in JSON"]
  end.

(** ** Sample documents *)

(** The character U+D800, a lone surrogate. *)
Definition surrogate_d800 : string :=
  String (ascii_of_nat 237) (String (ascii_of_nat 160) (String (ascii_of_nat 128) EmptyString)).

(** The document with the one record whose ['objectId'] is that character. *)
Definition surrogate_document : pydict :=
  [("results", PyList [PyDict [("objectId", PyStr surrogate_d800)]])].

Definition date_record : pydict :=
  [ ("objectId", PyStr "g1");
    ("endDate", PyDict [("__type", PyStr "Date"); ("iso", PyStr "2024-01-01T00:00:00Z")]);
    ("createdAt", PyStr "2024-01-02T10:00:00.000Z");
    ("updatedAt", PyStr "2024-01-03T11:30:00.000Z") ].

Definition two_good_one_bad : pydict :=
  [("results", PyList [PyDict [("objectId", PyStr "a")];
                       PyDict [("objectId", PyStr "b")];
                       PyInt 7])].

Definition shuffled_record : pyval :=
  PyDict [("score", PyInt 42); ("zzz", PyNone); ("objectId", PyStr "g9");
          ("adversary", PyStr "Sweden")].

(** * Properties *)

(** ** The functions on sample inputs *)

Example repr_samples :
  py_repr (PyList [PyStr "a"; PyNone; PyBool true; PyInt (-7);
                   PyFloat (PyFloatRepr "3.5"); PyDict [("k", PyStr "it's")]])
  = "['a', None, True, -7, 3.5, {'k': " ++ String dquote ("it's" ++ String dquote "}]").
Proof. reflexivity. Qed.

Example repr_control_characters :
  str_repr (String (ascii_of_nat 9)
              (String (ascii_of_nat 1) (String backslash EmptyString)))
  = "'\t\x01\\'".
Proof. reflexivity. Qed.

Example len_counts_characters : py_len (PyStr "héllo") = Return 5.
Proof. reflexivity. Qed.

Example flatten_nested :
  flatten_value (PyDict [("x", PyInt 1); ("y", PyList [PyInt 2; PyInt 3])])
  = Return (PyStr "x: 1; y: 2, 3").
Proof. reflexivity. Qed.

Example extract_empty_record_keys :
  match extract_fields (PyDict []) with
  | Return row => dict_keys row = schema
  | Raise _ => False
  end.
Proof. reflexivity. Qed.

Example extract_owned :
  match extract_fields
          (PyDict [("powerCardsOwned",
                    PyDict [("SpiritA", PyList [PyStr "Card1"; PyStr "Card2"]);
                            ("SpiritB", PyList [PyStr "Card3"])])]) with
  | Return row => dict_find "powerCardsOwned" row
                  = Some (PyStr "SpiritA: Card1, Card2; SpiritB: Card3")
  | Raise _ => False
  end.
Proof. reflexivity. Qed.

Example extract_not_a_dict :
  extract_fields (PyStr "x")
  = Raise (AttributeError "'str' object has no attribute 'get'").
Proof. reflexivity. Qed.

Example main_two_good_one_bad :
  let o := main (Loaded (PyDict [("results",
             PyList [PyDict [("objectId", PyStr "a")];
                     PyDict [("objectId", PyStr "b")];
                     PyInt 7])])) in
  exit_code o = 0%Z
  /\ stderr o = [Message "Warning: Error processing game result 3: 'int' object has no attribute 'get'"]
  /\ option_map (fun f => List.length (csv_rows f)) (csv_written o) = Some 2%nat
  /\ stdout o = [ "Reading GameResult2.json...";
                  "Found 3 game results";
                  "Writing to GameResult2.csv...";
                  "Successfully converted 2 game results to GameResult2.csv";
                  "   Columns: 31";
                  "   Sample columns: objectId, adversary, adversaryLevel, scenario, usingEvents, usingTokens, isMultiplayer, waveNumber, endingResult, blightCard..." ].
Proof. vm_compute. repeat split. Qed.

(** ** Dictionaries and the exception monad *)

Lemma bind_return {A B : Type} (a : A) (k : A -> result B) :
  bind (Return a) k = k a.
Proof. reflexivity. Qed.

Lemma bind_inv {A B : Type} (m : result A) (k : A -> result B) (b : B) :
  bind m k = Return b -> exists a, m = Return a /\ k a = Return b.
Proof.
  destruct m as [a | e]; simpl; intros H.
  - exists a. split; [reflexivity | exact H].
  - discriminate H.
Qed.

Lemma dict_contains_find (k : string) (d : pydict) :
  dict_contains k d = true <-> exists v, dict_find k d = Some v.
Proof.
  induction d as [| [k' v'] rest IH]; simpl.
  - split; [discriminate | intros [v H]; discriminate H].
  - destruct (String.eqb k' k); simpl.
    + split; [intros _; exists v'; reflexivity | reflexivity].
    + exact IH.
Qed.

Lemma dict_contains_false (k : string) (d : pydict) :
  dict_contains k d = false <-> dict_find k d = None.
Proof.
  induction d as [| [k' v'] rest IH]; simpl.
  - split; reflexivity.
  - destruct (String.eqb k' k); simpl.
    + split; discriminate.
    + exact IH.
Qed.

(** ** The value flattener *)

(** The test [flatten_value] makes on a dictionary never raises and is the
    date-wrapper test. *)
Lemma date_test_eq (d : pydict) :
  (if dict_contains "__type" d
   then t <- dict_getitem d "__type";; Return (py_eq_str t "Date")
   else Return false) = Return (is_date_wrapper d).
Proof.
  unfold is_date_wrapper, dict_getitem.
  destruct (dict_contains "__type" d) eqn:Hc.
  - apply dict_contains_find in Hc. destruct Hc as [v Hv]. rewrite Hv. reflexivity.
  - apply dict_contains_false in Hc. rewrite Hc. reflexivity.
Qed.

Lemma flatten_value_dict (d : pydict) :
  flatten_value (PyDict d) =
  if is_date_wrapper d then Return (dict_get d "iso" (PyStr ""))
  else if Nat.eqb (List.length d) 0 then Return (PyStr "")
  else items <- flatten_items d [];; Return (PyStr (String.concat "; " items)).
Proof.
  cbn [flatten_value]. rewrite date_test_eq. cbn [bind].
  destruct (is_date_wrapper d); [reflexivity |].
  destruct (Nat.eqb (List.length d) 0); [reflexivity |].
  f_equal.
  match goal with
  | |- ?loop d [] = _ =>
      enough (Hloop : forall kvs items, loop kvs items = flatten_items kvs items)
        by apply Hloop
  end.
  induction kvs as [| [k v] rest IH]; intros items.
  - reflexivity.
  - cbn [flatten_items]. unfold value_str.
    destruct v as [| b | z | f | s | l | e]; cbn [is_list_or_dict bind];
      try apply IH.
    destruct (flatten_value (PyDict e)); cbn [bind]; [apply IH | reflexivity].
Qed.

Lemma flatten_items_returns (kvs : pydict) :
  Forall (fun kv => exists r, flatten_value (snd kv) = Return r) kvs ->
  forall items, exists out, flatten_items kvs items = Return out.
Proof.
  induction 1 as [| [k v] rest [r Hr] _ IH]; intros items.
  - exists items. reflexivity.
  - cbn [flatten_items]. unfold value_str. simpl snd in Hr.
    destruct (is_list_or_dict v).
    + rewrite Hr. cbn [bind]. apply IH.
    + cbn [bind]. apply IH.
Qed.

(** [flatten_value] returns on every value: no path through it raises. *)
Lemma flatten_value_returns (v : pyval) : exists r, flatten_value v = Return r.
Proof.
  induction v as [| b | z | f | s | l _ | d IH] using pyval_nested_ind;
    try (eexists; reflexivity).
  rewrite flatten_value_dict.
  destruct (is_date_wrapper d); [eexists; reflexivity |].
  destruct (Nat.eqb (List.length d) 0); [eexists; reflexivity |].
  destruct (flatten_items_returns d IH []) as [out Hout].
  rewrite Hout. eexists. reflexivity.
Qed.

Lemma flatten_value_flattened (v : pyval) : flatten_value v = Return (flattened v).
Proof.
  unfold flattened. destruct (flatten_value_returns v) as [r Hr].
  rewrite Hr. reflexivity.
Qed.

Lemma flatten_items_map (kvs : pydict) (items : list string) :
  flatten_items kvs items = Return (List.app items (map pair_text kvs)).
Proof.
  revert items. induction kvs as [| [k v] rest IH]; intros items.
  - simpl. rewrite app_nil_r. reflexivity.
  - cbn [flatten_items]. unfold value_str.
    destruct (is_list_or_dict v) eqn:Hv.
    + rewrite flatten_value_flattened. cbn [bind]. rewrite IH.
      rewrite <- app_assoc. simpl. unfold fmt_pair. rewrite Hv. reflexivity.
    + cbn [bind]. rewrite IH.
      rewrite <- app_assoc. simpl. unfold fmt_pair. rewrite Hv. reflexivity.
Qed.

Lemma flatten_value_generic (d : pydict) :
  is_date_wrapper d = false ->
  flatten_value (PyDict d) = Return (PyStr (String.concat "; " (map pair_text d))).
Proof.
  intros Hd. rewrite flatten_value_dict, Hd.
  destruct d as [| kv rest]; [reflexivity |].
  cbn [List.length Nat.eqb]. rewrite flatten_items_map. reflexivity.
Qed.

(** C3: on a scalar the flattener returns the empty string for [None],
    "True" or "False" for a boolean, and a number or a string unchanged. *)
Theorem flatten_value_scalar :
  flatten_value PyNone = Return (PyStr "")
  /\ flatten_value (PyBool true) = Return (PyStr "True")
  /\ flatten_value (PyBool false) = Return (PyStr "False")
  /\ (forall z, flatten_value (PyInt z) = Return (PyInt z))
  /\ (forall f, flatten_value (PyFloat f) = Return (PyFloat f))
  /\ (forall s, flatten_value (PyStr s) = Return (PyStr s)).
Proof. repeat split. Qed.

(** C4: on an array the flattener returns the [str] of each element, in the
    order of the array, joined by ", "; a nested array or object appears in
    its bracketed [repr] form and is not flattened; the empty array gives
    the empty string. *)
Theorem flatten_value_array :
  (forall l, flatten_value (PyList l)
             = Return (PyStr (String.concat ", " (map py_str l))))
  /\ flatten_value (PyList []) = Return (PyStr "")
  /\ (forall x l, l <> [] ->
        String.concat ", " (map py_str (x :: l))
        = py_str x ++ ", " ++ String.concat ", " (map py_str l))
  /\ (forall l, py_str (PyList l)
                = "[" ++ String.concat ", " (map py_repr l) ++ "]")
  /\ (forall d, py_str (PyDict d)
                = "{" ++ String.concat ", "
                           (map (fun '(k, x) => str_repr k ++ ": " ++ py_repr x) d)
                      ++ "}")
  /\ flatten_value (PyList [PyStr "a"; PyStr "b"; PyStr "c"])
     = Return (PyStr "a, b, c")
  /\ flatten_value (PyList [PyList [PyInt 2; PyInt 3]; PyDict [("x", PyInt 1)]; PyStr "a"])
     = Return (PyStr "[2, 3], {'x': 1}, a").
Proof.
  repeat split.
  intros x l Hl. destruct l as [| y l]; [contradiction | reflexivity].
Qed.

Lemma flatten_value_array_witness :
  [PyStr "b"; PyInt 2] <> []
  /\ String.concat ", " (map py_str [PyStr "a"; PyStr "b"; PyInt 2]) = "a, b, 2".
Proof.
  split; [discriminate |].
  exact (proj1 (proj2 (proj2 flatten_value_array))
           (PyStr "a") [PyStr "b"; PyInt 2]
           (fun H => eq_ind [PyStr "b"; PyInt 2]
                       (fun l => match l with [] => False | _ :: _ => True end)
                       I [] H)).
Defined.

(** C5: on an object whose ['__type'] is ['Date'] the flattener returns the
    value of ['iso'], and the empty string when there is no ['iso']. *)
Theorem flatten_value_date :
  (forall d, dict_find "__type" d = Some (PyStr "Date") ->
     flatten_value (PyDict d)
     = Return (match dict_find "iso" d with
               | Some iso => iso
               | None => PyStr ""
               end))
  /\ flatten_value (PyDict [("__type", PyStr "Date");
                            ("iso", PyStr "2024-01-01T00:00:00Z")])
     = Return (PyStr "2024-01-01T00:00:00Z").
Proof.
  split; [| reflexivity].
  intros d Hd. rewrite flatten_value_dict. unfold is_date_wrapper.
  rewrite Hd. reflexivity.
Qed.

Lemma flatten_value_date_witness :
  dict_find "__type" [("iso", PyStr "2024-01-01T00:00:00Z"); ("__type", PyStr "Date")]
  = Some (PyStr "Date")
  /\ flatten_value (PyDict [("iso", PyStr "2024-01-01T00:00:00Z");
                            ("__type", PyStr "Date")])
     = Return (PyStr "2024-01-01T00:00:00Z").
Proof.
  split; [reflexivity |].
  exact (proj1 flatten_value_date
           [("iso", PyStr "2024-01-01T00:00:00Z"); ("__type", PyStr "Date")]
           eq_refl).
Defined.

(** C6: on an object that is not a date wrapper the flattener returns the
    "key: value" entries, in key order, joined by "; "; the value of an
    entry is flattened by the same function when it is an array or an
    object, and is its [str] otherwise; the empty object gives the empty
    string. *)
Theorem flatten_value_object :
  (forall d, is_date_wrapper d = false ->
     flatten_value (PyDict d)
     = Return (PyStr (String.concat "; "
         (map (fun '(k, v) =>
                 k ++ ": " ++ (if is_list_or_dict v
                               then match flatten_value v with
                                    | Return r => py_str r
                                    | Raise _ => ""
                                    end
                               else py_str v)) d))))
  /\ (forall v, exists r, flatten_value v = Return r)
  /\ flatten_value (PyDict []) = Return (PyStr "")
  /\ flatten_value (PyDict [("x", PyInt 1); ("y", PyList [PyInt 2; PyInt 3])])
     = Return (PyStr "x: 1; y: 2, 3").
Proof.
  split; [| split; [exact flatten_value_returns | split; reflexivity]].
  intros d Hd. rewrite (flatten_value_generic d Hd).
  do 3 f_equal. apply map_ext. intros [k v]. unfold pair_text, flattened.
  destruct (is_list_or_dict v); [| reflexivity].
  destruct (flatten_value_returns v) as [r Hr]. rewrite Hr. reflexivity.
Qed.

Lemma flatten_value_object_witness :
  is_date_wrapper [("x", PyInt 1);
                   ("y", PyDict [("z", PyList [PyInt 2; PyInt 3]); ("w", PyNone)])]
  = false
  /\ flatten_value (PyDict [("x", PyInt 1);
                            ("y", PyDict [("z", PyList [PyInt 2; PyInt 3]);
                                          ("w", PyNone)])])
     = Return (PyStr "x: 1; y: z: 2, 3; w: None").
Proof.
  split; [reflexivity |].
  exact (proj1 flatten_value_object
           [("x", PyInt 1);
            ("y", PyDict [("z", PyList [PyInt 2; PyInt 3]); ("w", PyNone)])]
           eq_refl).
Defined.

(** C10, as stated, fails: a number is returned as a number. *)
Lemma flatten_value_not_always_str :
  ~ (forall v, exists r, flatten_value v = Return r /\ is_str r = true).
Proof.
  intros H. destruct (H (PyInt 3)) as [r [Hr Hs]].
  injection Hr as <-. discriminate Hs.
Qed.

Example date_iso_number_is_kept :
  flatten_value (PyDict [("__type", PyStr "Date"); ("iso", PyInt 5)])
  = Return (PyInt 5).
Proof. reflexivity. Qed.

(** C10, amended: the flattener returns on every value and never raises;
    the result is a string, except that a number is returned unchanged and
    a date wrapper gives the value of its ['iso'] entry as it is. *)
Theorem flatten_value_total (v : pyval) :
  exists r, flatten_value v = Return r
    /\ (is_str r = true
        \/ (is_number v = true /\ r = v)
        \/ (exists d, v = PyDict d /\ is_date_wrapper d = true
                      /\ r = dict_get d "iso" (PyStr ""))).
Proof.
  destruct v as [| b | z | f | s | l | d].
  - eexists. split; [reflexivity | left; reflexivity].
  - eexists. split; [reflexivity | left; reflexivity].
  - eexists. split; [reflexivity | right; left; split; reflexivity].
  - eexists. split; [reflexivity | right; left; split; reflexivity].
  - eexists. split; [reflexivity | left; reflexivity].
  - eexists. split; [reflexivity | left; reflexivity].
  - destruct (is_date_wrapper d) eqn:Hd.
    + exists (dict_get d "iso" (PyStr "")). split.
      * rewrite flatten_value_dict, Hd. reflexivity.
      * right; right. exists d. repeat split. exact Hd.
    + eexists. split; [apply flatten_value_generic; exact Hd | left; reflexivity].
Qed.

(** ** The record extractor *)

Lemma end_date_returns (end_date : pyval) :
  match end_date with
  | PyDict d =>
      if dict_contains "iso" d then dict_getitem d "iso" else Return (PyStr "")
  | _ => Return (PyStr "")
  end = Return (iso_or_empty end_date).
Proof.
  destruct end_date as [| b | z | f | s | l | d]; try reflexivity.
  unfold iso_or_empty, dict_getitem.
  destruct (dict_contains "iso" d) eqn:Hc.
  - apply dict_contains_find in Hc. destruct Hc as [v Hv]. rewrite Hv. reflexivity.
  - apply dict_contains_false in Hc. rewrite Hc. reflexivity.
Qed.

Lemma bind_py_get_dict {B : Type} (d : pydict) (k : string) (default : pyval)
    (K : pyval -> result B) :
  bind (py_get (PyDict d) k default) K = K (dict_get d k default).
Proof. reflexivity. Qed.

(** On a dictionary, [extract_fields] is its ['powerCardsOwned'] step
    followed by the row. *)
Lemma extract_fields_dict (d : pydict) :
  extract_fields (PyDict d)
  = (owned <- owned_cell (dict_get d "powerCardsOwned" (PyDict []));;
     Return (row_of d owned)).
Proof.
  unfold extract_fields. cbv zeta.
  repeat (rewrite ?bind_py_get_dict, ?end_date_returns,
            ?flatten_value_flattened, ?bind_return; cbv beta).
  fold (owned_cell (dict_get d "powerCardsOwned" (PyDict []))).
  destruct (owned_cell (dict_get d "powerCardsOwned" (PyDict []))) as [owned | e];
    reflexivity.
Qed.

(** Anything but a dictionary has no [get]: the first line raises. *)
Lemma extract_fields_not_dict (v : pyval) :
  is_dict v = false -> extract_fields v = Raise (no_attribute v "get").
Proof.
  destruct v; intros H; try discriminate H; reflexivity.
Qed.

Lemma extract_fields_return_inv (r : pyval) (row : pydict) :
  extract_fields r = Return row ->
  exists d owned,
    r = PyDict d
    /\ owned_cell (dict_get d "powerCardsOwned" (PyDict [])) = Return owned
    /\ row = row_of d owned.
Proof.
  intros H. destruct r as [| b | z | f | s | l | d]; try discriminate H.
  rewrite extract_fields_dict in H.
  apply bind_inv in H. destruct H as [owned [Ho Hr]].
  injection Hr as <-. exists d, owned. repeat split. exact Ho.
Qed.

Lemma extract_fields_is_row (r : pyval) (row : pydict) :
  extract_fields r = Return row -> is_row row.
Proof.
  intros H. apply extract_fields_return_inv in H.
  destruct H as [d [owned [_ [_ ->]]]]. exists d, owned. reflexivity.
Qed.

Lemma row_of_keys (d : pydict) (owned : pyval) : dict_keys (row_of d owned) = schema.
Proof. reflexivity. Qed.

Lemma is_row_keys (row : pydict) : is_row row -> dict_keys row = schema.
Proof. intros [d [owned ->]]. apply row_of_keys. Qed.

Lemma cards_strs_loop_map (items : pydict) :
  cards_strs_loop items = map owned_entry items.
Proof.
  unfold cards_strs_loop.
  enough (H : forall acc,
             fold_left
               (fun (cards_strs : list string) '(spirit, cards) =>
                  List.app cards_strs [spirit ++ ": " ++ cards_list cards])
               items acc
             = List.app acc (map owned_entry items)) by apply H.
  induction items as [| [spirit cards] rest IH]; intros acc; simpl.
  - rewrite app_nil_r. reflexivity.
  - rewrite IH, <- app_assoc. reflexivity.
Qed.

Lemma owned_cell_dict (m : pydict) :
  owned_cell (PyDict m) = Return (PyStr (String.concat "; " (map owned_entry m))).
Proof.
  unfold owned_cell. destruct m as [| kv rest]; [reflexivity |].
  cbn [py_bool py_items bind]. rewrite cards_strs_loop_map. reflexivity.
Qed.

(** C8: when a record's ['powerCardsOwned'] is a map, or is absent, the
    extraction succeeds and the column holds the "category: items" entries
    of the map in key order joined by "; ", the items of a category joined
    by ", "; the empty and the absent map give the empty string. *)
Theorem power_cards_owned_column :
  (forall d m, dict_get d "powerCardsOwned" (PyDict []) = PyDict m ->
     exists row,
       extract_fields (PyDict d) = Return row
       /\ dict_find "powerCardsOwned" row
          = Some (PyStr (String.concat "; "
                   (map (fun '(category, items) => category ++ ": " ++ cards_list items)
                        m))))
  /\ (forall l, cards_list (PyList l) = String.concat ", " (map py_str l))
  /\ (forall d, dict_find "powerCardsOwned" d = None
                \/ dict_find "powerCardsOwned" d = Some (PyDict []) ->
        exists row,
          extract_fields (PyDict d) = Return row
          /\ dict_find "powerCardsOwned" row = Some (PyStr "")).
Proof.
  assert (Hmap : forall d m, dict_get d "powerCardsOwned" (PyDict []) = PyDict m ->
     exists row,
       extract_fields (PyDict d) = Return row
       /\ dict_find "powerCardsOwned" row
          = Some (PyStr (String.concat "; " (map owned_entry m)))).
  { intros d m Hm. rewrite extract_fields_dict, Hm, owned_cell_dict. cbn [bind].
    eexists. split; reflexivity. }
  split; [| split].
  - intros d m Hm. destruct (Hmap d m Hm) as [row [Hrow Hcell]].
    exists row. split; [exact Hrow |]. rewrite Hcell. reflexivity.
  - reflexivity.
  - intros d Hd. apply (Hmap d []). unfold dict_get.
    destruct Hd as [-> | ->]; reflexivity.
Qed.

Lemma power_cards_owned_column_witness :
  dict_get [("objectId", PyStr "g1");
            ("powerCardsOwned",
             PyDict [("SpiritA", PyList [PyStr "Card1"; PyStr "Card2"]);
                     ("SpiritB", PyList [PyStr "Card3"])])]
           "powerCardsOwned" (PyDict [])
  = PyDict [("SpiritA", PyList [PyStr "Card1"; PyStr "Card2"]);
            ("SpiritB", PyList [PyStr "Card3"])]
  /\ (exists row,
       extract_fields
         (PyDict [("objectId", PyStr "g1");
                  ("powerCardsOwned",
                   PyDict [("SpiritA", PyList [PyStr "Card1"; PyStr "Card2"]);
                           ("SpiritB", PyList [PyStr "Card3"])])])
       = Return row
       /\ dict_find "powerCardsOwned" row
          = Some (PyStr "SpiritA: Card1, Card2; SpiritB: Card3"))
  /\ exists row,
       extract_fields (PyDict [("objectId", PyStr "g2")]) = Return row
       /\ dict_find "powerCardsOwned" row = Some (PyStr "").
Proof.
  split; [reflexivity |]. split.
  - exact (proj1 power_cards_owned_column
             [("objectId", PyStr "g1");
              ("powerCardsOwned",
               PyDict [("SpiritA", PyList [PyStr "Card1"; PyStr "Card2"]);
                       ("SpiritB", PyList [PyStr "Card3"])])]
             [("SpiritA", PyList [PyStr "Card1"; PyStr "Card2"]);
              ("SpiritB", PyList [PyStr "Card3"])]
             eq_refl).
  - exact (proj2 (proj2 power_cards_owned_column)
             [("objectId", PyStr "g2")] (or_introl eq_refl)).
Defined.

Lemma dict_find_not_key (k : string) (d : pydict) :
  ~ In k (dict_keys d) -> dict_find k d = None.
Proof.
  induction d as [| [k' v] rest IH]; simpl; intros Hk; [reflexivity |].
  destruct (String.eqb_spec k' k) as [-> | _].
  - exfalso. apply Hk. left. reflexivity.
  - apply IH. intros Hin. apply Hk. right. exact Hin.
Qed.

(** Only ['endDate'] is read through ['iso']. *)
Lemma read_through_iso_end_date_only (c : string) :
  read_through_iso c -> c = "endDate".
Proof.
  intros H. unfold read_through_iso in H.
  destruct (in_dec string_dec c schema) as [Hin | Hout].
  - unfold schema in Hin. simpl in Hin.
    repeat (destruct Hin as [<- | Hin]); try contradiction; try reflexivity;
      exfalso;
      match type of H with
      | forall d row, _ -> dict_find ?k _ = _ =>
          specialize (H [(k, PyDict [("iso", PyStr "x")])]);
          rewrite extract_fields_dict in H;
          specialize (H _ eq_refl);
          vm_compute in H; discriminate H
      end.
  - specialize (H [] _ eq_refl).
    rewrite dict_find_not_key in H; [discriminate H | exact Hout].
Qed.

(** C7, as stated, fails: no two columns are read through ['iso']. *)
Lemma no_two_iso_columns :
  ~ (exists c1 c2, c1 <> c2 /\ read_through_iso c1 /\ read_through_iso c2).
Proof.
  intros [c1 [c2 [Hne [H1 H2]]]].
  apply read_through_iso_end_date_only in H1.
  apply read_through_iso_end_date_only in H2.
  apply Hne. rewrite H1, H2. reflexivity.
Qed.

Example created_at_is_copied :
  match extract_fields (PyDict [("createdAt", PyDict [("iso", PyStr "2024-01-01T00:00:00Z")])]) with
  | Return row => dict_find "createdAt" row
                  = Some (PyDict [("iso", PyStr "2024-01-01T00:00:00Z")])
  | Raise _ => False
  end.
Proof. reflexivity. Qed.

(** C7, amended: of the three date fields only ['endDate'] is read through
    a nested object: its column holds the object's ['iso'] value when the
    field is an object with an ['iso'] entry, and the empty string
    otherwise; ['createdAt'] and ['updatedAt'] are copied as they are, with
    the empty string when absent. *)
Theorem date_columns (d row : pydict) :
  extract_fields (PyDict d) = Return row ->
  dict_find "endDate" row
  = Some (match dict_get d "endDate" (PyDict []) with
          | PyDict e => match dict_find "iso" e with
                        | Some iso => iso
                        | None => PyStr ""
                        end
          | _ => PyStr ""
          end)
  /\ dict_find "createdAt" row = Some (dict_get d "createdAt" (PyStr ""))
  /\ dict_find "updatedAt" row = Some (dict_get d "updatedAt" (PyStr "")).
Proof.
  intros H. apply extract_fields_return_inv in H.
  destruct H as [d' [owned [Hd [_ ->]]]]. injection Hd as <-.
  repeat split.
Qed.

Lemma date_columns_witness :
  extract_fields (PyDict date_record) = Return (row_of date_record (PyStr ""))
  /\ dict_find "endDate" (row_of date_record (PyStr ""))
     = Some (PyStr "2024-01-01T00:00:00Z")
  /\ dict_find "createdAt" (row_of date_record (PyStr ""))
     = Some (PyStr "2024-01-02T10:00:00.000Z")
  /\ dict_find "updatedAt" (row_of date_record (PyStr ""))
     = Some (PyStr "2024-01-03T11:30:00.000Z").
Proof.
  split; [reflexivity |].
  exact (date_columns date_record (row_of date_record (PyStr "")) eq_refl).
Defined.

(** ** The pipeline driver *)

Lemma extract_rows_spec (results : list pyval) :
  forall i rows err,
    extract_rows i results rows err
    = (List.app rows (successes results), List.app err (warnings i results)).
Proof.
  unfold warnings.
  induction results as [| r rest IH]; intros i rows err; simpl.
  - rewrite !app_nil_r. reflexivity.
  - destruct (extract_fields r) as [row | e]; rewrite IH, <- app_assoc; reflexivity.
Qed.

Lemma successes_are_rows (results : list pyval) : Forall is_row (successes results).
Proof.
  induction results as [| r rest IH]; simpl; [constructor |].
  destruct (extract_fields r) as [row | e] eqn:Hr; [| exact IH].
  constructor; [| exact IH]. apply (extract_fields_is_row r). exact Hr.
Qed.

Lemma successes_length (results : list pyval) :
  List.length (successes results)
  = List.length (filter (fun r => is_return (extract_fields r)) results).
Proof.
  induction results as [| r rest IH]; simpl; [reflexivity |].
  destruct (extract_fields r); simpl; rewrite IH; reflexivity.
Qed.

Lemma successes_In (results : list pyval) (r : pyval) (row : pydict) :
  In r results -> extract_fields r = Return row -> In row (successes results).
Proof.
  induction results as [| r' rest IH]; simpl; [contradiction |].
  intros [-> | Hin] Hr.
  - rewrite Hr. left. reflexivity.
  - destruct (extract_fields r'); [right |]; apply IH; assumption.
Qed.

Lemma failures_nth (results : list pyval) :
  forall i j r e,
    nth_error results j = Some r ->
    extract_fields r = Raise e ->
    In (i + j, e) (failures i results).
Proof.
  induction results as [| r' rest IH]; intros i j r e Hn Hr.
  - destruct j; discriminate Hn.
  - destruct j as [| j]; simpl in Hn.
    + injection Hn as ->. simpl. rewrite Hr, Nat.add_0_r. left. reflexivity.
    + simpl. replace (i + S j) with (S i + j) by lia.
      destruct (extract_fields r'); [| right]; apply (IH (S i) j r e Hn Hr).
Qed.

Lemma dict_to_list_row (row : pydict) :
  is_row row -> dict_to_list schema row = Return (map snd row).
Proof. intros [d [owned ->]]. reflexivity. Qed.

Lemma first_surrogate_none (chars : list string) :
  existsb is_surrogate chars = false ->
  forall pos, first_surrogate pos chars = None.
Proof.
  induction chars as [| ch rest IH]; simpl; intros H pos; [reflexivity |].
  apply orb_false_elim in H. destruct H as [Hch Hrest].
  rewrite Hch. apply IH. exact Hrest.
Qed.

Lemma first_surrogate_some (chars : list string) :
  existsb is_surrogate chars = true ->
  forall pos, exists start ch run, first_surrogate pos chars = Some (start, ch, run).
Proof.
  induction chars as [| ch rest IH]; simpl; intros H pos; [discriminate H |].
  destruct (is_surrogate ch) eqn:Hch.
  - eexists. eexists. eexists. reflexivity.
  - apply IH. exact H.
Qed.

(** A text without surrogates is encoded. *)
Lemma utf8_encode_clean (text : string) :
  has_surrogate text = false -> utf8_encode text = Return tt.
Proof.
  unfold has_surrogate, utf8_encode. intros H.
  rewrite (first_surrogate_none _ H). reflexivity.
Qed.

(** A text with a surrogate raises [UnicodeEncodeError]. *)
Lemma utf8_encode_surrogate (text : string) :
  has_surrogate text = true ->
  exists msg, utf8_encode text = Raise (UnicodeEncodeError msg).
Proof.
  unfold has_surrogate, utf8_encode. intros H.
  destruct (first_surrogate_some _ H 0) as [start [ch [run ->]]].
  eexists. reflexivity.
Qed.

Lemma writerow_row (row : pydict) :
  is_row row ->
  writerow schema row
  = (_ <- utf8_encode (csv_line (map snd row));; Return (map snd row)).
Proof.
  intros Hrow. unfold writerow. rewrite (dict_to_list_row row Hrow). reflexivity.
Qed.

Lemma writerows_rows (rows : list pydict) :
  Forall is_row rows ->
  forall written,
    writerows schema rows written
    = (List.app written (map (map snd) (encodable_prefix rows)),
       first_encode_error rows).
Proof.
  induction 1 as [| row rest Hrow _ IH]; intros written; simpl.
  - rewrite app_nil_r. reflexivity.
  - rewrite (writerow_row row Hrow).
    destruct (has_surrogate (csv_line (map snd row))) eqn:Hs.
    + destruct (utf8_encode_surrogate _ Hs) as [msg ->]. cbn [bind].
      rewrite app_nil_r. reflexivity.
    + rewrite (utf8_encode_clean _ Hs). cbn [bind].
      rewrite IH, <- app_assoc. reflexivity.
Qed.

Lemma writeheader_schema : writeheader schema = Return (map PyStr schema).
Proof. vm_compute. reflexivity. Qed.

(** When no line holds a surrogate every row is written. *)
Lemma encode_all (rows : list pydict) :
  existsb (fun row => has_surrogate (csv_line (map snd row))) rows = false ->
  first_encode_error rows = None /\ encodable_prefix rows = rows.
Proof.
  induction rows as [| row rest IH]; simpl; intros H; [split; reflexivity |].
  apply orb_false_elim in H. destruct H as [Hrow Hrest].
  rewrite Hrow, (utf8_encode_clean _ Hrow).
  destruct (IH Hrest) as [-> ->]. split; reflexivity.
Qed.

(** When a line holds a surrogate the writing stops with the
    [UnicodeEncodeError] of the first such line. *)
Lemma encode_some (rows : list pydict) :
  existsb (fun row => has_surrogate (csv_line (map snd row))) rows = true ->
  exists msg, first_encode_error rows = Some (UnicodeEncodeError msg).
Proof.
  induction rows as [| row rest IH]; simpl; intros H; [discriminate H |].
  destruct (has_surrogate (csv_line (map snd row))) eqn:Hrow.
  - destruct (utf8_encode_surrogate _ Hrow) as [msg ->]. exists msg. reflexivity.
  - rewrite (utf8_encode_clean _ Hrow). apply IH. exact H.
Qed.

Lemma first_encode_error_kind (rows : list pydict) (e : exn) :
  first_encode_error rows = Some e ->
  existsb (fun row => has_surrogate (csv_line (map snd row))) rows = true
  /\ exists msg, e = UnicodeEncodeError msg.
Proof.
  intros He.
  destruct (existsb (fun row => has_surrogate (csv_line (map snd row))) rows) eqn:Hx.
  - split; [reflexivity |]. destruct (encode_some rows Hx) as [msg Hmsg].
    rewrite Hmsg in He. injection He as <-. exists msg. reflexivity.
  - destruct (encode_all rows Hx) as [Hnone _]. rewrite Hnone in He. discriminate He.
Qed.

Lemma encodable_prefix_firstn (rows : list pydict) :
  exists n, encodable_prefix rows = firstn n rows.
Proof.
  induction rows as [| row rest [n IH]]; simpl.
  - exists 0. reflexivity.
  - destruct (has_surrogate (csv_line (map snd row))).
    + exists 0. reflexivity.
    + exists (S n). simpl. rewrite IH. reflexivity.
Qed.

Lemma encodable_prefix_Forall (P : pydict -> Prop) (rows : list pydict) :
  Forall P rows -> Forall P (encodable_prefix rows).
Proof.
  induction 1 as [| row rest Hrow _ IH]; simpl; [constructor |].
  destruct (has_surrogate (csv_line (map snd row))); constructor; assumption.
Qed.

Lemma successes_In_inv (results : list pyval) (row : pydict) :
  In row (successes results) ->
  exists r, In r results /\ extract_fields r = Return row.
Proof.
  induction results as [| r' rest IH]; simpl; [contradiction |].
  destruct (extract_fields r') as [row' | e] eqn:Hr'.
  - intros [<- | Hin].
    + exists r'. split; [left; reflexivity | exact Hr'].
    + destruct (IH Hin) as [r [Hr Hx]]. exists r. split; [right; exact Hr | exact Hx].
  - intros Hin. destruct (IH Hin) as [r [Hr Hx]].
    exists r. split; [right; exact Hr | exact Hx].
Qed.

(** [main] once the document has a ['results'] that can be counted and
    visited. *)
Lemma main_loaded (data results : pyval) (n : nat) (items : list pyval) :
  py_contains "results" data = Return true ->
  py_getitem data "results" = Return results ->
  py_len results = Return n ->
  py_iter results = Return items ->
  main (Loaded data)
  = match successes items with
    | [] => exit_1 (progress n) (warnings 0 items)
              "Error: No valid game results found"
    | _ :: _ =>
        let file := Some (CsvFile schema
                            (map (map snd) (encodable_prefix (successes items)))) in
        match first_encode_error (successes items) with
        | Some e =>
            uncaught (List.app (progress n) ["Writing to " ++ output_file ++ "..."])
              (warnings 0 items) e file
        | None =>
            Outcome (List.app (progress n)
                       (("Writing to " ++ output_file ++ "...")
                        :: summary (List.length (successes items))))
                    (warnings 0 items) 0 file
        end
    end.
Proof.
  intros Hc Hg Hl Hi. unfold main. rewrite Hc, Hg, Hl, Hi, extract_rows_spec.
  cbn [List.app]. pose proof (successes_are_rows items) as Hrows.
  destruct (successes items) as [| first rest]; [reflexivity |].
  cbv zeta. rewrite (is_row_keys first) by (inversion Hrows; assumption).
  rewrite writeheader_schema, (writerows_rows _ Hrows). cbn [List.app].
  destruct (first_encode_error (first :: rest)); reflexivity.
Qed.

Lemma py_iter_len (results : pyval) (items : list pyval) :
  py_iter results = Return items -> exists n, py_len results = Return n.
Proof.
  destruct results; simpl; intros H; try discriminate H; eexists; reflexivity.
Qed.

(** [main] on a dictionary whose ['results'] can be visited. *)
Lemma main_results (d : pydict) (results : pyval) (items : list pyval) :
  dict_find "results" d = Some results ->
  py_iter results = Return items ->
  exists n,
    py_len results = Return n
    /\ main (Loaded (PyDict d))
       = match successes items with
         | [] => exit_1 (progress n) (warnings 0 items)
                   "Error: No valid game results found"
         | _ :: _ =>
             let file := Some (CsvFile schema
                                 (map (map snd) (encodable_prefix (successes items)))) in
             match first_encode_error (successes items) with
             | Some e =>
                 uncaught (List.app (progress n)
                             ["Writing to " ++ output_file ++ "..."])
                   (warnings 0 items) e file
             | None =>
                 Outcome (List.app (progress n)
                            (("Writing to " ++ output_file ++ "...")
                             :: summary (List.length (successes items))))
                         (warnings 0 items) 0 file
             end
         end.
Proof.
  intros Hf Hi. destruct (py_iter_len results items Hi) as [n Hn].
  exists n. split; [exact Hn |].
  apply (main_loaded (PyDict d) results n items); try assumption.
  - simpl. f_equal. apply dict_contains_find. exists results. exact Hf.
  - simpl. unfold dict_getitem. rewrite Hf. reflexivity.
Qed.

(** In a fatal case: status 1, no output file, and the report of the
    case on standard error. *)
Lemma main_fatal (loaded : load_result) :
  fatal loaded = true ->
  exit_code (main loaded) = 1%Z
  /\ csv_written (main loaded) = None
  /\ error_report loaded (stderr (main loaded)).
Proof.
  destruct loaded as [| msg | e | data]; intros Hfatal;
    try discriminate Hfatal; try (repeat split; fail).
  destruct data as [| b | z | f | s | l | d];
    try (repeat split; eexists; reflexivity).
  - unfold main, error_report, crashes. cbn [py_contains has_results_key].
    destruct (String.index 0 "results" s);
      repeat split; eexists; reflexivity.
  - unfold main, error_report, crashes. cbn [py_contains has_results_key].
    destruct (existsb (fun x => py_eq_str x "results") l);
      repeat split; eexists; reflexivity.
  - unfold error_report, crashes, has_results_key.
    destruct (dict_find "results" d) as [results |] eqn:Hf.
    + rewrite (proj2 (dict_contains_find "results" d))
        by (exists results; exact Hf).
      destruct (py_iter results) as [items | e] eqn:Hi.
      * destruct (main_results d results items Hf Hi) as [n [_ ->]].
        assert (Hs : successes items = []).
        { unfold fatal, surviving_rows, records, has_results_key in Hfatal.
          rewrite Hf, Hi in Hfatal.
          rewrite (proj2 (dict_contains_find "results" d)) in Hfatal
            by (exists results; exact Hf).
          destruct (successes items); [reflexivity | discriminate Hfatal]. }
        rewrite Hs.
        assert (Hrec : records (PyDict d) = items)
          by (unfold records; rewrite Hf, Hi; reflexivity).
        rewrite Hrec.
        destruct results; try discriminate Hi; repeat split.
      * unfold main. cbn [py_contains py_getitem]. unfold dict_getitem.
        rewrite (proj2 (dict_contains_find "results" d))
          by (exists results; exact Hf).
        rewrite Hf.
        destruct results; try discriminate Hi;
          repeat split; eexists; reflexivity.
    + unfold main. cbn [py_contains].
      rewrite (proj2 (dict_contains_false "results" d) Hf).
      repeat split.
Qed.

(** A document that is in none of the fatal cases. *)
Lemma not_fatal_inv (data : pyval) :
  fatal (Loaded data) = false ->
  exists d results items,
    data = PyDict d
    /\ dict_find "results" d = Some results
    /\ py_iter results = Return items
    /\ records data = items
    /\ successes items <> [].
Proof.
  destruct data as [| b | z | f | s | l | d]; try discriminate.
  unfold fatal, surviving_rows, records, has_results_key. intros Hfatal.
  apply orb_false_elim in Hfatal. destruct Hfatal as [_ Hrows].
  destruct (dict_find "results" d) as [results |] eqn:Hf; [| discriminate Hrows].
  destruct (py_iter results) as [items | e] eqn:Hi; [| discriminate Hrows].
  exists d, results, items.
  split; [reflexivity |]. split; [exact Hf |]. split; [exact Hi |].
  split; [reflexivity |].
  intros Hs. rewrite Hs in Hrows. discriminate Hrows.
Qed.

(** Outside the fatal cases [main] opens the file and writes the rows
    that survive, up to the first that cannot be encoded. *)
Lemma main_not_fatal (data : pyval) :
  fatal (Loaded data) = false ->
  exists out,
    main (Loaded data)
    = let file := Some (CsvFile schema
                          (map (map snd) (encodable_prefix (surviving_rows data)))) in
      match first_encode_error (surviving_rows data) with
      | Some e => uncaught out (warnings 0 (records data)) e file
      | None => Outcome (List.app out (summary (List.length (surviving_rows data))))
                        (warnings 0 (records data)) 0 file
      end.
Proof.
  intros Hfatal.
  destruct (not_fatal_inv data Hfatal) as [d [results [items [-> [Hf [Hi [Hrec Hne]]]]]]].
  destruct (main_results d results items Hf Hi) as [n [_ ->]].
  unfold surviving_rows. rewrite Hrec.
  destruct (successes items) as [| first rest] eqn:Hs; [contradiction Hne; reflexivity |].
  exists (List.app (progress n) ["Writing to " ++ output_file ++ "..."]).
  cbv zeta. destruct (first_encode_error (first :: rest)); [reflexivity |].
  rewrite <- app_assoc. reflexivity.
Qed.

Lemma surviving_rows_extracted (data : pyval) :
  Forall (fun row => (exists r, extract_fields r = Return row) /\ is_row row)
    (surviving_rows data).
Proof.
  unfold surviving_rows. apply Forall_forall. intros row Hin.
  destruct (successes_In_inv _ row Hin) as [r [_ Hr]].
  split; [exists r; exact Hr | apply (extract_fields_is_row r); exact Hr].
Qed.

Lemma first_encode_error_none (rows : list pydict) :
  first_encode_error rows = None -> encodable_prefix rows = rows.
Proof.
  intros Hnone.
  destruct (existsb (fun row => has_surrogate (csv_line (map snd row))) rows) eqn:Hx.
  - destruct (encode_some rows Hx) as [msg Hmsg].
    rewrite Hmsg in Hnone. discriminate Hnone.
  - apply (encode_all rows Hx).
Qed.

Example main_surrogate_row :
  exit_code (main (Loaded (PyDict surrogate_document))) = 1%Z
  /\ stderr (main (Loaded (PyDict surrogate_document)))
     = [Traceback (UnicodeEncodeError
          "'utf-8' codec can't encode character '\ud800' in position 0: surrogates not allowed")]
  /\ csv_written (main (Loaded (PyDict surrogate_document)))
     = Some (CsvFile schema []).
Proof. vm_compute. repeat split. Qed.

(** C1, as stated, fails: the record whose ['objectId'] is a lone surrogate
    is extracted, but its line cannot be written as UTF-8, and the run ends
    with status 1 and a file that holds the header only. *)
Lemma main_surrogate_row_exits_1 :
  ~ (forall d l,
       dict_find "results" d = Some (PyList l) ->
       (exists r row, In r l /\ extract_fields r = Return row) ->
       exit_code (main (Loaded (PyDict d))) = 0%Z
       /\ exists f,
            csv_written (main (Loaded (PyDict d))) = Some f
            /\ List.length (csv_rows f)
               = List.length (filter (fun r => is_return (extract_fields r)) l)).
Proof.
  intros H.
  destruct (H surrogate_document [PyDict [("objectId", PyStr surrogate_d800)]] eq_refl)
    as [Hexit _].
  - exists (PyDict [("objectId", PyStr surrogate_d800)]).
    exists (row_of [("objectId", PyStr surrogate_d800)] (PyStr "")).
    split; [left; reflexivity | reflexivity].
  - vm_compute in Hexit. discriminate Hexit.
Qed.

(** C1, amended: when ['results'] is an array with at least one record that
    is extracted, and the line of no extracted row holds a lone surrogate,
    every record that raises is skipped with a warning that carries its
    position counted from 1, the records after it are still extracted, the
    file gets one data row per extracted record, in order, and the exit
    status is 0. *)
Theorem main_skips_failed_records (d : pydict) (l : list pyval) :
  dict_find "results" d = Some (PyList l) ->
  (exists r row, In r l /\ extract_fields r = Return row) ->
  (forall r row, In r l -> extract_fields r = Return row ->
     has_surrogate (csv_line (map snd row)) = false) ->
  let o := main (Loaded (PyDict d)) in
  exit_code o = 0%Z
  /\ stderr o = warnings 0 l
  /\ (forall i r e,
        nth_error l i = Some r ->
        extract_fields r = Raise e ->
        In (Message ("Warning: Error processing game result "
                     ++ int_str (Z.of_nat (i + 1)) ++ ": " ++ exn_str e))
           (stderr o))
  /\ List.length (stderr o)
     = List.length (filter (fun r => negb (is_return (extract_fields r))) l)
  /\ exists f,
       csv_written o = Some f
       /\ csv_rows f = map (map snd) (successes l)
       /\ List.length (csv_rows f)
          = List.length (filter (fun r => is_return (extract_fields r)) l)
       /\ (forall r row,
             In r l -> extract_fields r = Return row ->
             In (map snd row) (csv_rows f)).
Proof.
  intros Hf [r0 [row0 [Hin0 Hr0]]] Hclean o. subst o.
  destruct (main_results d (PyList l) l Hf eq_refl) as [n [_ ->]].
  pose proof (successes_In l r0 row0 Hin0 Hr0) as Hne.
  assert (Hx : existsb (fun row => has_surrogate (csv_line (map snd row)))
                 (successes l) = false).
  { destruct (existsb (fun row => has_surrogate (csv_line (map snd row)))
                (successes l)) eqn:Hx; [| reflexivity].
    apply existsb_exists in Hx. destruct Hx as [row [Hrow Hs]].
    destruct (successes_In_inv l row Hrow) as [r [Hr Hx]].
    rewrite (Hclean r row Hr Hx) in Hs. discriminate Hs. }
  destruct (encode_all _ Hx) as [Hnone Hall].
  rewrite Hnone, Hall. cbv zeta.
  destruct (successes l) as [| first rest] eqn:Hs; [contradiction |].
  cbn [exit_code stderr csv_written].
  split; [reflexivity |]. split; [reflexivity |]. split; [| split].
  - intros i r e Hn Hr. unfold warnings.
    apply (in_map (fun ie => warning (fst ie) (snd ie)) _ (i, e)).
    apply (failures_nth l 0 i r e Hn Hr).
  - unfold warnings. rewrite length_map. clear.
    generalize 0. induction l as [| r tl IH]; intros i; simpl; [reflexivity |].
    destruct (extract_fields r); simpl; rewrite IH; reflexivity.
  - eexists. split; [reflexivity |]. cbn [csv_rows]. rewrite <- Hs.
    split; [reflexivity |]. split.
    + rewrite length_map. apply successes_length.
    + intros r row Hin Hr. apply in_map. apply (successes_In l r row Hin Hr).
Qed.

Lemma main_skips_failed_records_witness :
  exit_code (main (Loaded (PyDict two_good_one_bad))) = 0%Z
  /\ stderr (main (Loaded (PyDict two_good_one_bad)))
     = [Message "Warning: Error processing game result 3: 'int' object has no attribute 'get'"]
  /\ option_map (fun f => List.length (csv_rows f))
       (csv_written (main (Loaded (PyDict two_good_one_bad))))
     = Some 2.
Proof.
  assert (Hsome : exists r row,
            In r [PyDict [("objectId", PyStr "a")];
                  PyDict [("objectId", PyStr "b")]; PyInt 7]
            /\ extract_fields r = Return row).
  { exists (PyDict [("objectId", PyStr "a")]).
    exists (row_of [("objectId", PyStr "a")] (PyStr "")).
    split; [left; reflexivity | reflexivity]. }
  assert (Hclean : forall r row,
            In r [PyDict [("objectId", PyStr "a")];
                  PyDict [("objectId", PyStr "b")]; PyInt 7] ->
            extract_fields r = Return row ->
            has_surrogate (csv_line (map snd row)) = false).
  { intros r row [<- | [<- | [<- | []]]] Hr;
      try (injection Hr as <-; reflexivity).
    discriminate Hr. }
  pose proof (main_skips_failed_records two_good_one_bad _ eq_refl Hsome Hclean) as H.
  cbv zeta in H. destruct H as [Hexit [Herr _]].
  split; [exact Hexit |]. split; [exact Herr |]. reflexivity.
Defined.


Example main_load_error :
  fatal (LoadError (UnicodeDecodeError
           "'utf-8' codec can't decode byte 0xff in position 0: invalid start byte"))
  = false
  /\ main (LoadError (UnicodeDecodeError
             "'utf-8' codec can't decode byte 0xff in position 0: invalid start byte"))
     = Outcome ["Reading GameResult2.json..."]
         [Traceback (UnicodeDecodeError
            "'utf-8' codec can't decode byte 0xff in position 0: invalid start byte")]
         1 None.
Proof. split; reflexivity. Qed.



(** C9: every row that [extract_fields] returns has the keys of the schema,
    in schema order, whatever the record holds; so in a file that [main]
    writes, the header is the schema, taken from the first extracted row,
    and every data row is the list of values of an extracted row whose keys
    are the header, in the same order: the data rows are the extracted rows,
    all of them in a run that ends with status 0, and those before the row
    that could not be written otherwise. *)
Theorem rows_share_schema :
  (forall r row, extract_fields r = Return row -> dict_keys row = schema)
  /\ (forall loaded f,
        csv_written (main loaded) = Some f ->
        csv_header f = schema
        /\ exists rows,
             csv_header f = dict_keys (hd [] rows)
             /\ (exists n, csv_rows f = map (map snd) (firstn n rows))
             /\ (exit_code (main loaded) = 0%Z -> csv_rows f = map (map snd) rows)
             /\ Forall (fun row => (exists r, extract_fields r = Return row)
                                   /\ dict_keys row = csv_header f) rows).
Proof.
  split.
  - intros r row H. apply is_row_keys. apply (extract_fields_is_row r). exact H.
  - intros loaded f Hout.
    destruct (fatal loaded) eqn:Hfatal.
    + destruct (main_fatal loaded Hfatal) as [_ [Hnone _]].
      rewrite Hnone in Hout. discriminate Hout.
    + destruct loaded as [| msg | e | data]; try discriminate Hfatal;
        [discriminate Hout |].
      destruct (main_not_fatal data Hfatal) as [out Hmain].
      destruct (not_fatal_inv data Hfatal)
        as [d [results [items [_ [_ [_ [Hrec Hne]]]]]]].
      pose proof (surviving_rows_extracted data) as Hrows.
      rewrite Hmain in Hout |- *. cbv zeta in Hout |- *.
      assert (Hf : f = CsvFile schema
                         (map (map snd) (encodable_prefix (surviving_rows data)))).
      { destruct (first_encode_error (surviving_rows data));
          cbn [csv_written uncaught] in Hout; injection Hout as <-; reflexivity. }
      subst f. cbn [csv_header csv_rows]. split; [reflexivity |].
      exists (surviving_rows data). split; [| split; [| split]].
      * unfold surviving_rows in Hrows |- *. rewrite Hrec in Hrows |- *.
        destruct (successes items) as [| first rest];
          [contradiction Hne; reflexivity |].
        symmetry. apply is_row_keys. inversion Hrows as [| ? ? [_ Hrow] _].
        exact Hrow.
      * destruct (encodable_prefix_firstn (surviving_rows data)) as [n ->].
        exists n. reflexivity.
      * destruct (first_encode_error (surviving_rows data)) eqn:He;
          cbn [exit_code uncaught]; [discriminate |].
        intros _. rewrite (first_encode_error_none _ He). reflexivity.
      * apply (Forall_impl _ (P := fun row => (exists r, extract_fields r = Return row)
                                             /\ is_row row)); [| exact Hrows].
        intros row [Hx Hrow]. split; [exact Hx | apply is_row_keys; exact Hrow].
Qed.

Lemma rows_share_schema_witness :
  extract_fields shuffled_record
  = Return (row_of [("score", PyInt 42); ("zzz", PyNone); ("objectId", PyStr "g9");
                    ("adversary", PyStr "Sweden")] (PyStr ""))
  /\ dict_keys (row_of [("score", PyInt 42); ("zzz", PyNone); ("objectId", PyStr "g9");
                        ("adversary", PyStr "Sweden")] (PyStr ""))
     = schema
  /\ csv_header (CsvFile schema
                   (map (map snd)
                      (encodable_prefix (successes [shuffled_record; PyInt 7]))))
     = schema.
Proof.
  split; [reflexivity |]. split.
  - exact (proj1 rows_share_schema shuffled_record _ eq_refl).
  - refine (proj1 (proj2 rows_share_schema
                     (Loaded (PyDict [("results", PyList [shuffled_record; PyInt 7])]))
                     (CsvFile schema
                        (map (map snd)
                           (encodable_prefix (successes [shuffled_record; PyInt 7]))))
                     _)).
    vm_compute. reflexivity.
Defined.

(** ** Further properties of the record extractor *)

Lemma owned_cell_outcome (owned : pyval) :
  if negb (py_bool owned) || is_dict owned
  then exists cell, owned_cell owned = Return cell
  else owned_cell owned = Raise (no_attribute owned "items").
Proof.
  destruct owned as [| b | z | f | s | l | m];
    [unfold owned_cell .. |]; cbn [py_bool is_dict orb negb].
  - eexists; reflexivity.
  - destruct b; [reflexivity | eexists; reflexivity].
  - destruct (Z.eqb z 0); [eexists; reflexivity | reflexivity].
  - destruct (String.eqb (float_repr f) "0.0" || String.eqb (float_repr f) "-0.0");
      [eexists; reflexivity | reflexivity].
  - destruct (String.eqb s ""); [eexists; reflexivity | reflexivity].
  - destruct l; [eexists; reflexivity | reflexivity].
  - rewrite orb_true_r. rewrite owned_cell_dict. eexists; reflexivity.
Qed.

(** X1: [extract_fields] raises in two cases only, both an
    [AttributeError]: the record is not a dictionary (it has no [get]), or
    its ['powerCardsOwned'] is a true value that is not a dictionary (it has
    no [items]).  On every other record it returns a row. *)
Theorem extract_fields_raises_iff (r : pyval) (e : exn) :
  extract_fields r = Raise e
  <-> (is_dict r = false /\ e = no_attribute r "get")
      \/ (exists d,
            r = PyDict d
            /\ py_bool (dict_get d "powerCardsOwned" (PyDict [])) = true
            /\ is_dict (dict_get d "powerCardsOwned" (PyDict [])) = false
            /\ e = no_attribute (dict_get d "powerCardsOwned" (PyDict [])) "items").
Proof.
  split.
  - intros H. destruct (is_dict r) eqn:Hr.
    + right. destruct r as [| b | z | f | s | l | d]; try discriminate Hr.
      exists d. rewrite extract_fields_dict in H.
      pose proof (owned_cell_outcome (dict_get d "powerCardsOwned" (PyDict []))) as Ho.
      destruct (negb (py_bool (dict_get d "powerCardsOwned" (PyDict [])))
                || is_dict (dict_get d "powerCardsOwned" (PyDict []))) eqn:Hc.
      * destruct Ho as [cell Ho]. rewrite Ho in H. discriminate H.
      * apply orb_false_elim in Hc. destruct Hc as [Hb Hd].
        apply negb_false_iff in Hb.
        rewrite Ho in H. cbn [bind] in H. injection H as <-.
        repeat split; assumption.
    + left. split; [reflexivity |].
      rewrite (extract_fields_not_dict r Hr) in H. injection H as <-. reflexivity.
  - intros [[Hr ->] | [d [-> [Hb [Hd ->]]]]].
    + apply extract_fields_not_dict. exact Hr.
    + rewrite extract_fields_dict.
      pose proof (owned_cell_outcome (dict_get d "powerCardsOwned" (PyDict []))) as Ho.
      rewrite Hb, Hd in Ho. cbn [negb orb] in Ho. rewrite Ho. reflexivity.
Qed.

Lemma extract_fields_raises_iff_witness :
  extract_fields (PyDict [("objectId", PyStr "g1"); ("powerCardsOwned", PyStr "none")])
  = Raise (AttributeError "'str' object has no attribute 'items'")
  /\ extract_fields (PyList [])
     = Raise (AttributeError "'list' object has no attribute 'get'").
Proof.
  split.
  - apply (proj2 (extract_fields_raises_iff
                    (PyDict [("objectId", PyStr "g1"); ("powerCardsOwned", PyStr "none")])
                    (AttributeError "'str' object has no attribute 'items'"))).
    right. exists [("objectId", PyStr "g1"); ("powerCardsOwned", PyStr "none")].
    repeat split.
  - apply (proj2 (extract_fields_raises_iff (PyList [])
                    (AttributeError "'list' object has no attribute 'get'"))).
    left. split; reflexivity.
Defined.

Lemma dict_get_agree (d1 d2 : pydict) (k : string) (default : pyval) :
  dict_find k d1 = dict_find k d2 -> dict_get d1 k default = dict_get d2 k default.
Proof. unfold dict_get. intros ->. reflexivity. Qed.

Ltac in_list := repeat (first [left; reflexivity | right]).

Lemma extract_fields_agree (d1 d2 : pydict) :
  (forall k, In k schema -> dict_find k d1 = dict_find k d2) ->
  extract_fields (PyDict d1) = extract_fields (PyDict d2).
Proof.
  intros H. rewrite !extract_fields_dict. unfold row_of.
  repeat match goal with
         | |- context [dict_get d1 ?k ?default] =>
             rewrite (dict_get_agree d1 d2 k default)
               by (apply H; unfold schema; in_list)
         end.
  reflexivity.
Qed.

(** X2: [extract_fields] reads the 31 fields of the schema and nothing
    else: two records that agree on those fields give the same result,
    whatever else they hold. *)
Theorem extract_fields_reads_schema_only (d1 d2 : pydict) :
  (forall k, In k schema -> dict_find k d1 = dict_find k d2) ->
  extract_fields (PyDict d1) = extract_fields (PyDict d2).
Proof. exact (extract_fields_agree d1 d2). Qed.

Lemma extract_fields_reads_schema_only_witness :
  extract_fields (PyDict [("score", PyInt 42); ("comment", PyStr "won"); ("turn", PyInt 9)])
  = extract_fields (PyDict [("score", PyInt 42); ("turn", PyInt 9)]).
Proof.
  apply extract_fields_reads_schema_only.
  intros k Hin. unfold schema in Hin. simpl in Hin.
  repeat (destruct Hin as [<- | Hin]; [reflexivity |]). contradiction.
Defined.

Lemma dict_find_permutation (k : string) (d1 d2 : pydict) :
  Permutation d1 d2 -> NoDup (dict_keys d1) -> dict_find k d1 = dict_find k d2.
Proof.
  induction 1 as [| [k' v'] l1 l2 Hp IH | [k1 v1] [k2 v2] l | l1 l2 l3 H12 IH12 H23 IH23];
    intros Hnd.
  - reflexivity.
  - simpl. destruct (String.eqb k' k); [reflexivity |].
    apply IH. inversion Hnd; assumption.
  - simpl. destruct (String.eqb_spec k1 k) as [-> | _];
      destruct (String.eqb_spec k2 k) as [-> | _]; try reflexivity.
    exfalso. inversion Hnd as [| ? ? Hnotin _]. apply Hnotin. left. reflexivity.
  - rewrite IH12 by exact Hnd. apply IH23.
    apply (Permutation_NoDup (l := dict_keys l1)); [| exact Hnd].
    unfold dict_keys. apply Permutation_map. exact H12.
Qed.

(** X3: the order of the keys in a record does not matter: a record and any
    reordering of its entries give the same result. *)
Theorem extract_fields_key_order (d1 d2 : pydict) :
  NoDup (dict_keys d1) -> Permutation d1 d2 ->
  extract_fields (PyDict d1) = extract_fields (PyDict d2).
Proof.
  intros Hnd Hp. apply extract_fields_agree.
  intros k _. apply dict_find_permutation; assumption.
Qed.

Lemma extract_fields_key_order_witness :
  extract_fields (PyDict [("score", PyInt 42); ("objectId", PyStr "g9")])
  = extract_fields (PyDict [("objectId", PyStr "g9"); ("score", PyInt 42)]).
Proof.
  apply extract_fields_key_order.
  - repeat constructor; simpl; intros H;
      repeat (destruct H as [H | H]; [discriminate H |]); exact H.
  - apply perm_swap.
Defined.

(** X4: the twenty simple columns hold the record's own value, whatever its
    type, and it is neither flattened nor turned into text; an absent field
    gives the empty string, and for the four flags [False]. *)
Theorem simple_columns_copied (d row : pydict) :
  extract_fields (PyDict d) = Return row ->
  (forall k, In k text_fields ->
     dict_find k row = Some (dict_get d k (PyStr "")))
  /\ (forall k, In k flag_fields ->
        dict_find k row = Some (dict_get d k (PyBool false))).
Proof.
  intros H. apply extract_fields_return_inv in H.
  destruct H as [d' [owned [Hd [_ ->]]]]. injection Hd as <-.
  split; intros k Hin; simpl in Hin;
    repeat (destruct Hin as [<- | Hin]; [reflexivity |]); contradiction.
Qed.

Lemma simple_columns_copied_witness :
  dict_find "score" (row_of [("score", PyList [PyInt 1; PyInt 2])] (PyStr ""))
  = Some (PyList [PyInt 1; PyInt 2])
  /\ dict_find "usingEvents" (row_of [("score", PyList [PyInt 1; PyInt 2])] (PyStr ""))
     = Some (PyBool false).
Proof.
  destruct (simple_columns_copied [("score", PyList [PyInt 1; PyInt 2])]
              (row_of [("score", PyList [PyInt 1; PyInt 2])] (PyStr "")) eq_refl)
    as [Htext Hflag].
  split.
  - apply (Htext "score"). unfold text_fields. in_list.
  - apply (Hflag "usingEvents"). unfold flag_fields. in_list.
Defined.

(** X5: the six array columns and ['layout'] hold what [flatten_value]
    returns on the record's value, and the empty string when the field is
    absent. *)
Theorem flattened_columns (d row : pydict) (k : string) :
  extract_fields (PyDict d) = Return row ->
  In k flattened_fields ->
  (forall v, dict_find k d = Some v ->
     exists cell, flatten_value v = Return cell /\ dict_find k row = Some cell)
  /\ (dict_find k d = None -> dict_find k row = Some (PyStr "")).
Proof.
  intros H Hin. apply extract_fields_return_inv in H.
  destruct H as [d' [owned [Hd [_ ->]]]]. injection Hd as <-.
  simpl in Hin.
  repeat (destruct Hin as [<- | Hin];
          [split;
           [intros v Hv; exists (flattened v);
            split; [apply flatten_value_flattened |];
            cbn; unfold dict_get; rewrite Hv; reflexivity
           | intros Hv; cbn; unfold dict_get; rewrite Hv; reflexivity] |]).
  contradiction.
Qed.

Lemma flattened_columns_witness :
  (exists cell,
     flatten_value (PyDict [("a", PyInt 1)]) = Return cell
     /\ dict_find "layout"
          (row_of [("layout", PyDict [("a", PyInt 1)])] (PyStr "")) = Some cell)
  /\ dict_find "spirits" (row_of [("layout", PyDict [("a", PyInt 1)])] (PyStr ""))
     = Some (PyStr "").
Proof.
  split.
  - apply (proj1 (flattened_columns [("layout", PyDict [("a", PyInt 1)])]
                    (row_of [("layout", PyDict [("a", PyInt 1)])] (PyStr ""))
                    "layout" eq_refl
                    ltac:(unfold flattened_fields; in_list))
             (PyDict [("a", PyInt 1)]) eq_refl).
  - apply (proj2 (flattened_columns [("layout", PyDict [("a", PyInt 1)])]
                    (row_of [("layout", PyDict [("a", PyInt 1)])] (PyStr ""))
                    "spirits" eq_refl
                    ltac:(unfold flattened_fields; in_list))
             eq_refl).
Defined.

Lemma owned_entry_pair_text (kv : string * pyval) :
  is_dict (snd kv) = false -> owned_entry kv = pair_text kv.
Proof.
  destruct kv as [k v]. unfold owned_entry, pair_text, cards_list, flattened.
  destruct v; simpl; intros H; try reflexivity. discriminate H.
Qed.

(** X6: the code written out for ['powerCardsOwned'] gives the text
    [flatten_value] gives for the same map, as long as the map is not a date
    wrapper and no category holds a nested object. *)
Theorem power_cards_owned_as_flattened (d m : pydict) :
  dict_get d "powerCardsOwned" (PyDict []) = PyDict m ->
  is_date_wrapper m = false ->
  Forall (fun kv => is_dict (snd kv) = false) m ->
  exists row cell,
    extract_fields (PyDict d) = Return row
    /\ flatten_value (PyDict m) = Return cell
    /\ dict_find "powerCardsOwned" row = Some cell.
Proof.
  intros Hm Hdate Hflat.
  rewrite extract_fields_dict, Hm, owned_cell_dict. cbn [bind].
  rewrite (flatten_value_generic m Hdate).
  eexists. eexists. split; [reflexivity |]. split; [reflexivity |].
  cbn. do 3 f_equal. apply map_ext_in. intros kv Hin.
  apply owned_entry_pair_text.
  rewrite Forall_forall in Hflat. apply Hflat. exact Hin.
Qed.

Example power_cards_owned_nested_object_differs :
  owned_cell (PyDict [("SpiritA", PyDict [("x", PyInt 1)])])
  = Return (PyStr "SpiritA: {'x': 1}")
  /\ flatten_value (PyDict [("SpiritA", PyDict [("x", PyInt 1)])])
     = Return (PyStr "SpiritA: x: 1").
Proof. split; reflexivity. Qed.

Lemma power_cards_owned_as_flattened_witness :
  exists row cell,
    extract_fields
      (PyDict [("powerCardsOwned",
                PyDict [("SpiritA", PyList [PyStr "Card1"; PyInt 2]);
                        ("SpiritB", PyNone)])])
    = Return row
    /\ flatten_value (PyDict [("SpiritA", PyList [PyStr "Card1"; PyInt 2]);
                              ("SpiritB", PyNone)])
       = Return cell
    /\ dict_find "powerCardsOwned" row = Some cell.
Proof.
  apply (power_cards_owned_as_flattened
           [("powerCardsOwned",
             PyDict [("SpiritA", PyList [PyStr "Card1"; PyInt 2]);
                     ("SpiritB", PyNone)])]
           [("SpiritA", PyList [PyStr "Card1"; PyInt 2]); ("SpiritB", PyNone)]
           eq_refl eq_refl).
  repeat constructor.
Defined.

(** ** Further properties of the value flattener *)

(** X7: flattening twice changes nothing: what [flatten_value] returns on a
    value that is not a date wrapper is returned unchanged when flattened
    again. *)
Theorem flatten_value_idempotent (v r : pyval) :
  (forall d, v = PyDict d -> is_date_wrapper d = false) ->
  flatten_value v = Return r ->
  flatten_value r = Return r.
Proof.
  intros Hdate H.
  destruct v as [| b | z | f | s | l | d];
    try (injection H as <-; reflexivity).
  rewrite (flatten_value_generic d (Hdate d eq_refl)) in H.
  injection H as <-. reflexivity.
Qed.

Example flatten_value_date_wrapper_not_idempotent :
  flatten_value (PyDict [("__type", PyStr "Date"); ("iso", PyList [PyList [PyInt 1]])])
  = Return (PyList [PyList [PyInt 1]])
  /\ flatten_value (PyList [PyList [PyInt 1]]) = Return (PyStr "[1]").
Proof. split; reflexivity. Qed.

Lemma flatten_value_idempotent_witness :
  flatten_value (PyStr "x: 1; y: 2, 3") = Return (PyStr "x: 1; y: 2, 3").
Proof.
  apply (flatten_value_idempotent
           (PyDict [("x", PyInt 1); ("y", PyList [PyInt 2; PyInt 3])])).
  - intros d Hd. injection Hd as <-. reflexivity.
  - reflexivity.
Defined.

(** ** Further properties of the pipeline driver *)

Lemma successes_failures_length (results : list pyval) (i : nat) :
  List.length (successes results) + List.length (failures i results)
  = List.length results.
Proof.
  revert i. induction results as [| r rest IH]; intros i; simpl; [reflexivity |].
  destruct (extract_fields r); simpl; rewrite <- (IH (S i)); lia.
Qed.


(** X8: in a run that writes the file and ends with status 0 every record
    is accounted for: the data rows and the warnings together are as many
    as the records. *)
Theorem main_accounts_for_records (data : pyval) (f : csv_file) :
  csv_written (main (Loaded data)) = Some f ->
  exit_code (main (Loaded data)) = 0%Z ->
  List.length (csv_rows f) + List.length (stderr (main (Loaded data)))
  = List.length (records data).
Proof.
  intros Hw Hexit. destruct (fatal (Loaded data)) eqn:Hfatal.
  - destruct (main_fatal _ Hfatal) as [_ [Hnone _]].
    rewrite Hnone in Hw. discriminate Hw.
  - destruct (main_not_fatal data Hfatal) as [out Hmain].
    rewrite Hmain in Hw, Hexit |- *. cbv zeta in Hw, Hexit |- *.
    destruct (first_encode_error (surviving_rows data)) eqn:He;
      [discriminate Hexit |].
    cbn [csv_written] in Hw. injection Hw as <-.
    rewrite (first_encode_error_none _ He).
    cbn [csv_rows stderr]. unfold warnings, surviving_rows.
    rewrite !length_map. apply successes_failures_length.
Qed.

Lemma main_accounts_for_records_witness :
  List.length (csv_rows (CsvFile schema
                           (map (map snd)
                              (encodable_prefix
                                 (surviving_rows (PyDict two_good_one_bad))))))
  + List.length (stderr (main (Loaded (PyDict two_good_one_bad))))
  = List.length (records (PyDict two_good_one_bad)).
Proof.
  apply (main_accounts_for_records (PyDict two_good_one_bad)
           (CsvFile schema
              (map (map snd)
                 (encodable_prefix (surviving_rows (PyDict two_good_one_bad))))));
    vm_compute; reflexivity.
Defined.

(** X9: the writer never refuses a row of the extractor for its fields:
    with the header taken from the first row, [writerows] can only stop on
    the [UnicodeEncodeError] of a line that holds a lone surrogate; when no
    line does, it writes every row and raises nothing; and every data row
    it writes has as many cells as the header. *)
Theorem writer_accepts_extracted_rows (items : list pyval) (first : pydict)
    (rest : list pydict) :
  fst (extract_rows 0 items [] []) = first :: rest ->
  (forall e,
     snd (writerows (dict_keys first) (first :: rest) []) = Some e ->
     exists msg, e = UnicodeEncodeError msg)
  /\ ((forall row, In row (first :: rest) ->
         has_surrogate (csv_line (map snd row)) = false) ->
      writerows (dict_keys first) (first :: rest) []
      = (map (map snd) (first :: rest), None))
  /\ Forall (fun cells => List.length cells = List.length (dict_keys first))
       (fst (writerows (dict_keys first) (first :: rest) [])).
Proof.
  rewrite extract_rows_spec. cbn [fst List.app]. intros Hs.
  pose proof (successes_are_rows items) as Hrows. rewrite Hs in Hrows.
  assert (Hfirst : dict_keys first = schema)
    by (apply is_row_keys; inversion Hrows; assumption).
  rewrite Hfirst, (writerows_rows _ Hrows). cbn [fst snd List.app].
  split; [| split].
  - intros e He. apply (first_encode_error_kind _ e He).
  - intros Hclean.
    assert (Hx : existsb (fun row => has_surrogate (csv_line (map snd row)))
                   (first :: rest) = false).
    { destruct (existsb (fun row => has_surrogate (csv_line (map snd row)))
                  (first :: rest)) eqn:Hx; [| reflexivity].
      apply existsb_exists in Hx. destruct Hx as [row [Hrow Hsur]].
      rewrite (Hclean row Hrow) in Hsur. discriminate Hsur. }
    destruct (encode_all _ Hx) as [-> ->]. reflexivity.
  - apply Forall_map. apply (Forall_impl _ (P := is_row)).
    + intros row Hrow. rewrite <- (is_row_keys row Hrow).
      unfold dict_keys. rewrite !length_map. reflexivity.
    + apply encodable_prefix_Forall. exact Hrows.
Qed.

Lemma writer_accepts_extracted_rows_witness :
  writerows (dict_keys (row_of [("objectId", PyStr "a")] (PyStr "")))
    [row_of [("objectId", PyStr "a")] (PyStr "")] []
  = ([map snd (row_of [("objectId", PyStr "a")] (PyStr ""))], None)
  /\ exists msg,
       UnicodeEncodeError
         "'utf-8' codec can't encode character '\ud800' in position 0: surrogates not allowed"
       = UnicodeEncodeError msg.
Proof.
  split.
  - apply (proj1 (proj2 (writer_accepts_extracted_rows
                           [PyInt 7; PyDict [("objectId", PyStr "a")]]
                           (row_of [("objectId", PyStr "a")] (PyStr "")) [] eq_refl))).
    intros row [<- | []]. reflexivity.
  - apply (proj1 (writer_accepts_extracted_rows
                    [PyDict [("objectId", PyStr surrogate_d800)]]
                    (row_of [("objectId", PyStr surrogate_d800)] (PyStr "")) []
                    eq_refl)).
    vm_compute. reflexivity.
Defined.

Lemma strings_all_fail (xs : list string) :
  successes (map PyStr xs) = []
  /\ forall i,
       warnings i (map PyStr xs)
       = map (fun j => warning j (no_attribute (PyStr "") "get"))
             (seq i (List.length xs)).
Proof.
  unfold warnings. induction xs as [| x rest [IHs IHw]]; simpl.
  - split; [reflexivity | intros i; reflexivity].
  - split; [exact IHs |]. intros i. simpl. rewrite IHw. reflexivity.
Qed.

(** X10: a ['results'] that is a string or a dictionary is visited by
    character or by key: every item is a string and is skipped with a
    warning, no file is written, and the run ends with status 1 after
    ["Error: No valid game results found"]. *)
Theorem main_results_not_a_list (d : pydict) (results : pyval) (n : nat) :
  dict_find "results" d = Some results ->
  is_str results || is_dict results = true ->
  py_len results = Return n ->
  exit_code (main (Loaded (PyDict d))) = 1%Z
  /\ csv_written (main (Loaded (PyDict d))) = None
  /\ stderr (main (Loaded (PyDict d)))
     = List.app
         (map (fun i =>
                 Message ("Warning: Error processing game result "
                          ++ int_str (Z.of_nat (i + 1))
                          ++ ": 'str' object has no attribute 'get'"))
              (seq 0 n))
         [Message "Error: No valid game results found"].
Proof.
  intros Hf Hkind Hlen.
  assert (Hit : exists xs, py_iter results = Return (map PyStr xs)
                           /\ List.length xs = n).
  { destruct results as [| b | z | f | s | l | m]; try discriminate Hkind;
      simpl in Hlen; injection Hlen as <-.
    - exists (str_chars s). split; reflexivity.
    - exists (dict_keys m). split; [reflexivity |].
      unfold dict_keys. apply length_map. }
  destruct Hit as [xs [Hi <-]].
  destruct (main_results d results (map PyStr xs) Hf Hi) as [n' [_ ->]].
  destruct (strings_all_fail xs) as [Hs Hw].
  rewrite Hs, Hw. repeat split.
Qed.

Lemma main_results_not_a_list_witness :
  exit_code (main (Loaded (PyDict [("results", PyDict [("g1", PyDict []); ("g2", PyDict [])])])))
  = 1%Z
  /\ csv_written (main (Loaded (PyDict [("results", PyDict [("g1", PyDict []); ("g2", PyDict [])])])))
     = None
  /\ stderr (main (Loaded (PyDict [("results", PyDict [("g1", PyDict []); ("g2", PyDict [])])])))
     = [ Message "Warning: Error processing game result 1: 'str' object has no attribute 'get'";
         Message "Warning: Error processing game result 2: 'str' object has no attribute 'get'";
         Message "Error: No valid game results found" ].
Proof.
  exact (main_results_not_a_list
           [("results", PyDict [("g1", PyDict []); ("g2", PyDict [])])]
           (PyDict [("g1", PyDict []); ("g2", PyDict [])]) 2
           eq_refl eq_refl eq_refl).
Defined.






(** X12: the loop treats the records one by one: running it over two lists
    in a row is running it over the first and then, from there, over the
    second, so a record that raises changes nothing for the others. *)
Theorem extract_rows_app (l1 l2 : list pyval) :
  forall i rows err,
    extract_rows i (List.app l1 l2) rows err
    = extract_rows (i + List.length l1) l2
        (fst (extract_rows i l1 rows err))
        (snd (extract_rows i l1 rows err)).
Proof.
  induction l1 as [| r rest IH]; intros i rows err; simpl.
  - rewrite Nat.add_0_r. reflexivity.
  - replace (i + S (List.length rest)) with (S i + List.length rest) by lia.
    destruct (extract_fields r); apply IH.
Qed.


